(** * PANDA [Dataset] model: locking, column naming and row bookkeeping

    A shallow embedding of [panda/models/dataset.py].  The methods of
    [Dataset] mutate [self], read and write the database row of the dataset,
    talk to Solr and to the task queue, and raise exceptions.  They are
    embedded as computations over an explicit [State] that holds the
    in-memory instance, the stores and a log of the calls made to the
    collaborators; a computation ends by returning, by raising, or by
    running out of fuel (only the [while] loop of the column naming can). *)

From Stdlib Require Import Ascii String ZArith.
From stdpp Require Import gmap strings list fin_maps pretty.

Open Scope string_scope.
Open Scope list_scope.
Open Scope Z_scope.

(** ** Python string helpers used by the slug code *)

(** ['%i' % n] for a Python [int]. *)
Definition fmt_i (n : Z) : string := pretty n.

Definition code (c : ascii) : N := N_of_ascii c.

(** [\s] of the [re] module on a byte string (no [re.UNICODE], no
    [re.LOCALE]): space, [\t], [\n], [\v], [\f], [\r].  [str.strip()] with no
    argument strips the same six characters. *)
Definition is_space (c : ascii) : bool :=
  let n := code c in ((n =? 32) || ((9 <=? n) && (n <=? 13)))%N.

(** [\w] of the [re] module on a byte string: [[a-zA-Z0-9_]]. *)
Definition is_word (c : ascii) : bool :=
  let n := code c in
  (((48 <=? n) && (n <=? 57)) || ((65 <=? n) && (n <=? 90))
   || ((97 <=? n) && (n <=? 122)) || (n =? 95))%N.

Definition is_hyphen (c : ascii) : bool := (code c =? 45)%N.

(** [re.sub('[^\w\s-]', '', s)] *)
Fixpoint sub_non_word (s : string) : string :=
  match s with
  | EmptyString => EmptyString
  | String c r =>
      if is_word c || is_space c || is_hyphen c
      then String c (sub_non_word r) else sub_non_word r
  end.

Fixpoint lstrip (s : string) : string :=
  match s with
  | EmptyString => EmptyString
  | String c r => if is_space c then lstrip r else s
  end.

Fixpoint rstrip (s : string) : string :=
  match s with
  | EmptyString => EmptyString
  | String c r =>
      match rstrip r with
      | EmptyString => if is_space c then EmptyString else String c EmptyString
      | r' => String c r'
      end
  end.

(** [s.strip()] *)
Definition strip (s : string) : string := rstrip (lstrip s).

Definition lower_char (c : ascii) : ascii :=
  let n := code c in
  if ((65 <=? n) && (n <=? 90))%N then ascii_of_N (n + 32) else c.

(** [s.lower()] *)
Fixpoint lower (s : string) : string :=
  match s with
  | EmptyString => EmptyString
  | String c r => String (lower_char c) (lower r)
  end.

(** [re.sub('[-\s]+', '_', s)]: every maximal run of hyphens and white space
    becomes one underscore.  [in_run] tells that the previous character
    belonged to a run that has already been replaced. *)
Fixpoint sub_runs (in_run : bool) (s : string) : string :=
  match s with
  | EmptyString => EmptyString
  | String c r =>
      if is_hyphen c || is_space c
      then (if in_run then sub_runs true r else String "_" (sub_runs true r))
      else String c (sub_runs false r)
  end.

(** ** Column descriptors *)

(** One entry of [column_schema] (a JSON object in the source). *)
Record ColumnDescriptor := mkColumn {
  c_name : string;
  c_indexed : bool;
  c_type : string;
  c_indexed_name : option string;
  c_min : option string;
  c_max : option string
}.

Definition set_indexed_name (v : option string) (c : ColumnDescriptor) : ColumnDescriptor :=
  mkColumn (c_name c) (c_indexed c) (c_type c) v (c_min c) (c_max c).

Definition set_indexed (v : bool) (c : ColumnDescriptor) : ColumnDescriptor :=
  mkColumn (c_name c) v (c_type c) (c_indexed_name c) (c_min c) (c_max c).

Definition set_type (v : string) (c : ColumnDescriptor) : ColumnDescriptor :=
  mkColumn (c_name c) (c_indexed c) v (c_indexed_name c) (c_min c) (c_max c).

Section ColumnNames.

(** [unicodedata.normalize('NFKD', s).encode('ascii', 'ignore')]: the
    decomposition tables belong to Python's [unicodedata], not to this
    repository, so the step is a parameter of the development. *)
Variable nfkd_ascii : string -> string.

(** The slug of a column name (lines 86-89). *)
Definition slugify (name : string) : string :=
  let slug := nfkd_ascii name in
  let slug := lower (strip (sub_non_word slug)) in
  sub_runs false slug.

(** ['column_%s_%s' % (c['type'], slug)] *)
Definition typed_name (c : ColumnDescriptor) : string :=
  "column_" +:+ c_type c +:+ "_" +:+ slugify (c_name c).

(** The [while test_name in typed_column_names] loop (lines 95-102), entered
    with [n]; [None] when the fuel runs out. *)
Fixpoint while_test_name (fuel : nat) (name : string)
    (typed_column_names : list (option string)) (n : Z) : option string :=
  match fuel with
  | O => None
  | S fuel' =>
      let test_name := name +:+ fmt_i n in
      if decide (Some test_name ∈ typed_column_names)
      then while_test_name fuel' name typed_column_names (n + 1)
      else Some test_name
  end.

(** "Deduplicate within dataset" (lines 94-102). *)
Definition deduplicate (fuel : nat) (name : string)
    (typed_column_names : list (option string)) : option string :=
  if decide (Some name ∈ typed_column_names)
  then while_test_name fuel name typed_column_names 2
  else Some name.

(** The [for i, c in enumerate(self.column_schema)] loop (lines 79-105),
    from a given [typed_column_names]. *)
Fixpoint generate_from (fuel : nat) (typed_column_names : list (option string))
    (column_schema : list ColumnDescriptor) : option (list ColumnDescriptor) :=
  match column_schema with
  | [] => Some []
  | c :: rest =>
      if negb (c_indexed c) then
        rest' ← generate_from fuel (typed_column_names ++ [None]) rest;
        Some (set_indexed_name None c :: rest')
      else
        name ← deduplicate fuel (typed_name c) typed_column_names;
        rest' ← generate_from fuel (typed_column_names ++ [Some name]) rest;
        Some (set_indexed_name (Some name) c :: rest')
  end.

(** [Dataset._generate_typed_column_names] on the value of
    [self.column_schema]; [None] when the fuel runs out. *)
Definition _generate_typed_column_names (fuel : nat)
    (column_schema : list ColumnDescriptor) : option (list ColumnDescriptor) :=
  generate_from fuel [] column_schema.

End ColumnNames.

(** ** The data model *)

(** An upload as the upload resolver presents it (section 6 of the
    specification); [u_id] is its primary key. *)
Record DataUpload := mkUpload {
  u_id : Z;
  u_imported : bool;
  u_columns : list string;
  u_guessed_types : list string;
  u_sample_data : option (list (list string))
}.

(** An import task class; [tt_name] is its [name] attribute. *)
Record TaskType := mkTaskType { tt_name : string }.

(** The model fields of [Dataset] that the methods below read or write: one
    row of the dataset table.  References to other tables are primary keys;
    a nullable field is an [option]. *)
Record Fields := mkFields {
  pk : Z;
  slug : string;
  initial_upload : option Z;
  column_schema : option (list ColumnDescriptor);
  sample_data : option (list (list string));
  row_count : option Z;
  current_task : option Z;
  creation_date : option Z;
  last_modified : option Z;
  last_modification : option string;
  last_modified_by : option Z;
  locked : bool;
  locked_at : option Z
}.

(** A [Dataset] instance in memory: its model fields, and the attribute
    [lock_id] that [unlock] assigns.  [lock_id] is no model field: [save]
    does not write it.  [None] is an instance that has no such attribute,
    [Some v] one whose attribute holds [v]. *)
Record Dataset := mkDataset {
  fields :> Fields;
  lock_id : option (option Z)
}.

Definition with_fields (f : Fields -> Fields) (d : Dataset) : Dataset :=
  mkDataset (f (fields d)) (lock_id d).

Definition set_lock_id (v : option Z) (d : Dataset) : Dataset :=
  mkDataset (fields d) (Some v).

Definition set_initial_upload (v : option Z) (f : Fields) : Fields :=
  mkFields (pk f) (slug f) v (column_schema f) (sample_data f) (row_count f)
    (current_task f) (creation_date f) (last_modified f) (last_modification f)
    (last_modified_by f) (locked f) (locked_at f).

Definition set_column_schema (v : option (list ColumnDescriptor)) (f : Fields) : Fields :=
  mkFields (pk f) (slug f) (initial_upload f) v (sample_data f) (row_count f)
    (current_task f) (creation_date f) (last_modified f) (last_modification f)
    (last_modified_by f) (locked f) (locked_at f).

Definition set_sample_data (v : option (list (list string))) (f : Fields) : Fields :=
  mkFields (pk f) (slug f) (initial_upload f) (column_schema f) v (row_count f)
    (current_task f) (creation_date f) (last_modified f) (last_modification f)
    (last_modified_by f) (locked f) (locked_at f).

Definition set_row_count (v : option Z) (f : Fields) : Fields :=
  mkFields (pk f) (slug f) (initial_upload f) (column_schema f) (sample_data f) v
    (current_task f) (creation_date f) (last_modified f) (last_modification f)
    (last_modified_by f) (locked f) (locked_at f).

Definition set_current_task (v : option Z) (f : Fields) : Fields :=
  mkFields (pk f) (slug f) (initial_upload f) (column_schema f) (sample_data f)
    (row_count f) v (creation_date f) (last_modified f) (last_modification f)
    (last_modified_by f) (locked f) (locked_at f).

Definition set_creation_date (v : option Z) (f : Fields) : Fields :=
  mkFields (pk f) (slug f) (initial_upload f) (column_schema f) (sample_data f)
    (row_count f) (current_task f) v (last_modified f) (last_modification f)
    (last_modified_by f) (locked f) (locked_at f).

Definition set_last_modified (v : option Z) (f : Fields) : Fields :=
  mkFields (pk f) (slug f) (initial_upload f) (column_schema f) (sample_data f)
    (row_count f) (current_task f) (creation_date f) v (last_modification f)
    (last_modified_by f) (locked f) (locked_at f).

Definition set_last_modification (v : option string) (f : Fields) : Fields :=
  mkFields (pk f) (slug f) (initial_upload f) (column_schema f) (sample_data f)
    (row_count f) (current_task f) (creation_date f) (last_modified f) v
    (last_modified_by f) (locked f) (locked_at f).

Definition set_last_modified_by (v : option Z) (f : Fields) : Fields :=
  mkFields (pk f) (slug f) (initial_upload f) (column_schema f) (sample_data f)
    (row_count f) (current_task f) (creation_date f) (last_modified f)
    (last_modification f) v (locked f) (locked_at f).

Definition set_locked (v : bool) (f : Fields) : Fields :=
  mkFields (pk f) (slug f) (initial_upload f) (column_schema f) (sample_data f)
    (row_count f) (current_task f) (creation_date f) (last_modified f)
    (last_modification f) (last_modified_by f) v (locked_at f).

Definition set_locked_at (v : option Z) (f : Fields) : Fields :=
  mkFields (pk f) (slug f) (initial_upload f) (column_schema f) (sample_data f)
    (row_count f) (current_task f) (creation_date f) (last_modified f)
    (last_modification f) (last_modified_by f) (locked f) v.

(** ** Exceptions and results *)

Inductive Exception :=
| DatasetLockedError (msg : string)
| DataImportError (msg : string)
| DoesNotExist
| TypeError (msg : string)
| IndexError (msg : string)
| TaskSubsystemError (msg : string).

(** The three [DataImportError]s of [import_data]; the specification calls
    them [AlreadyImported], [UnsupportedFileType] and [SchemaMismatch]. *)
Definition AlreadyImported : Exception :=
  DataImportError "This file has already been imported.".
Definition UnsupportedFileType : Exception :=
  DataImportError "This file type is not supported for data import.".
Definition SchemaMismatch : Exception :=
  DataImportError "The columns in this file do not match those in the dataset.".
Definition DatasetLocked : Exception :=
  DatasetLockedError "This dataset is currently locked by another process.".

Inductive Result (A : Type) :=
| Return (a : A)
| Raise (e : Exception)
| OutOfFuel.
Arguments Return {A} a.
Arguments Raise {A} e.
Arguments OutOfFuel {A}.

(** ** Collaborators: Solr and the task subsystem *)

Inductive Core := SOLR_DATA_CORE | SOLR_DATASETS_CORE.

(** A document of the data core. *)
Record SolrRow := mkSolrRow {
  r_dataset_slug : string;
  r_external_id : string;
  r_data : list string
}.

(** The three queries the model builds.  [render] is the query string the
    source passes to [panda.solr]. *)
Inductive Query :=
| ByDataset (dataset_slug : string)
| ByDatasetAndId (dataset_slug external_id : string)
| BySlug (slug : string).

Definition render (q : Query) : string :=
  match q with
  | ByDataset s => "dataset_slug:" +:+ s
  | ByDatasetAndId s e => "dataset_slug:" +:+ s +:+ " AND external_id:" +:+ e
  | BySlug s => "slug:" +:+ s
  end.

(** A task handed to [apply_async], with its [args], [kwargs] and
    [task_id]. *)
Inductive Task :=
| ImportTask (task_name dataset_slug : string) (upload_id : Z)
    (external_id_field_index : option Z) (task_id : Z)
| ReindexTask (dataset_slug : string) (task_id : Z)
| ExportCSVTask (dataset_slug : string) (filename : option string) (task_id : Z)
| PurgeDataTask (dataset_slug : string).

(** What the process did to the outside, oldest first. *)
Inductive Event :=
| RecordSaved (row : Fields)
| RecordDeleted (id : Z)
| SolrAdd (core : Core) (rows : list SolrRow)
| SolrDelete (core : Core) (query : string)
| SolrQuery (core : Core) (query : string)
| TaskStatusCreated (task_name : string) (creator id : Z)
| AbortRequested (task : Z)
| Dispatched (task : Task).

(** ** The state a method runs in *)

(** [self] is the instance the method is called on.  [db] is the dataset
    table.  [concurrent] lists what other processes commit to the table:
    its head is applied just before this process reads the table, so that a
    read sees a table that may differ from the one this process last wrote.
    [clock] gives the successive values of [datetime.now()] and
    [datetime.utcnow()], [uuids] the identifiers generated for rows added
    without an [external_id].  [faults] schedules the outcomes of the calls
    that create or dispatch tasks: [Some msg] makes the next such call
    raise.  [data_core] maps a dataset slug to its rows by external id,
    [datasets_core] a slug to the catalog document of the dataset. *)
Record State := mkState {
  self : Dataset;
  db : gmap Z Fields;
  concurrent : list (gmap Z Fields -> gmap Z Fields);
  clock : nat -> Z;
  ticks : nat;
  uuids : nat -> string;
  uuid_count : nat;
  faults : list (option string);
  next_task_id : Z;
  data_core : gmap string (gmap string SolrRow);
  datasets_core : gmap string string;
  queue : list Task;
  log : list Event
}.

Definition M (A : Type) : Type := State -> Result A * State.

#[global] Instance M_ret : MRet M := λ A a s, (Return a, s).

#[global] Instance M_bind : MBind M := λ A B k m s,
  match m s with
  | (Return a, s') => k a s'
  | (Raise e, s') => (Raise e, s')
  | (OutOfFuel, s') => (OutOfFuel, s')
  end.

Definition raise {A} (e : Exception) : M A := λ s, (Raise e, s).

Definition out_of_fuel {A} : M A := λ s, (OutOfFuel, s).

(** [try: body except: handler; raise]: the handler runs in the state the
    body left, then the exception of the body is raised again, unless the
    handler itself raises. *)
Definition try_except_reraise (body : M unit) (handler : M unit) : M unit := λ s,
  match body s with
  | (Raise e, s') => (handler ;; raise e) s'
  | r => r
  end.

Definition get_state : M State := λ s, (Return s, s).

Definition get_self : M Dataset := λ s, (Return (self s), s).

(** The model fields of [self]. *)
Definition get_fields : M Fields := λ s, (Return (fields (self s)), s).

Definition put_self (d : Dataset) : M unit := λ s,
  (Return (),
   mkState d (db s) (concurrent s) (clock s) (ticks s) (uuids s) (uuid_count s)
     (faults s) (next_task_id s) (data_core s) (datasets_core s) (queue s) (log s)).

(** [self.<field> = v] *)
Definition assign (f : Fields -> Fields) : M unit :=
  d ← get_self; put_self (with_fields f d).

Definition emit (e : Event) : M unit := λ s,
  (Return (),
   mkState (self s) (db s) (concurrent s) (clock s) (ticks s) (uuids s) (uuid_count s)
     (faults s) (next_task_id s) (data_core s) (datasets_core s) (queue s)
     (log s ++ [e])).

(** [datetime.now()] and [datetime.utcnow()] *)
Definition datetime_now : M Z := λ s,
  (Return (clock s (ticks s)),
   mkState (self s) (db s) (concurrent s) (clock s) (S (ticks s)) (uuids s)
     (uuid_count s) (faults s) (next_task_id s) (data_core s) (datasets_core s)
     (queue s) (log s)).

Definition put_db (m : gmap Z Fields) (rest : list (gmap Z Fields -> gmap Z Fields)) : M unit := λ s,
  (Return (),
   mkState (self s) m rest (clock s) (ticks s) (uuids s) (uuid_count s)
     (faults s) (next_task_id s) (data_core s) (datasets_core s) (queue s) (log s)).

(** The table [m] as the next read finds it, when [others] is what the other
    processes are still to commit. *)
Definition after_others (others : list (gmap Z Fields -> gmap Z Fields))
    (m : gmap Z Fields) : gmap Z Fields :=
  match others with
  | [] => m
  | commit :: _ => commit m
  end.

Definition visible (s : State) : gmap Z Fields := after_others (concurrent s) (db s).

(** [Dataset.objects.get(pk=id)]: a fresh copy of the stored row, after
    what the other processes committed. *)
Definition objects_get (id : Z) : M Fields := λ s,
  let s' := snd (put_db (visible s) (tail (concurrent s)) s) in
  match db s' !! id with
  | Some row => (Return row, s')
  | None => (Raise DoesNotExist, s')
  end.

(** [models.Model.save]: the row of [self] replaces the stored one.  The
    table is the record store of section 6 of the specification: a read or
    a write of it succeeds, and a read returns what was last written. *)
Definition Model_save : M unit :=
  s ← get_state;
  put_db (<[pk (self s) := fields (self s)]> (db s)) (concurrent s) ;;
  emit (RecordSaved (fields (self s))).

(** [Dataset.save] (lines 64-71) *)
Definition save : M unit :=
  this ← get_fields;
  (if creation_date this is None
   then now ← datetime_now; assign (set_creation_date (Some now))
   else mret ()) ;;
  Model_save.

(** ** Locking (lines 107-143) *)

(** [Dataset.lock] *)
Definition lock : M unit :=
  this ← get_fields;
  before_lock ← objects_get (pk this);
  assign (set_locked (locked before_lock)) ;;
  assign (set_locked_at (locked_at before_lock)) ;;
  this ← get_fields;
  if locked this then raise DatasetLocked
  else
    new_locked_at ← datetime_now;
    assign (set_locked true) ;;
    assign (set_locked_at (Some new_locked_at)) ;;
    save ;;
    after_lock ← objects_get (pk this);
    assign (set_locked (locked after_lock)) ;;
    assign (set_locked_at (locked_at after_lock)) ;;
    this ← get_fields;
    if decide (locked_at this ≠ Some new_locked_at) then raise DatasetLocked
    else mret ().

(** [Dataset.unlock]: the second assignment is [self.lock_id = None]. *)
Definition unlock : M unit :=
  assign (set_locked false) ;;
  (d ← get_self; put_self (set_lock_id None d)) ;;
  save.

(** ** The task subsystem *)

Definition put_tasks (fs : list (option string)) (next : Z) (q : list Task) : M unit := λ s,
  (Return (),
   mkState (self s) (db s) (concurrent s) (clock s) (ticks s) (uuids s) (uuid_count s)
     fs next (data_core s) (datasets_core s) q (log s)).

(** The scheduled outcome of the next call that creates or dispatches a
    task. *)
Definition outcome : M unit := λ s,
  match faults s with
  | [] => (Return (), s)
  | None :: rest => put_tasks rest (next_task_id s) (queue s) s
  | Some msg :: rest =>
      (Raise (TaskSubsystemError msg), snd (put_tasks rest (next_task_id s) (queue s) s))
  end.

(** [TaskStatus.objects.create(task_name=..., creator=...)]; the result is
    the primary key of the new record. *)
Definition TaskStatus_objects_create (task_name : string) (creator : Z) : M Z :=
  outcome ;;
  s ← get_state;
  put_tasks (faults s) (next_task_id s + 1) (queue s) ;;
  emit (TaskStatusCreated task_name creator (next_task_id s)) ;;
  mret (next_task_id s).

(** [<task>.apply_async(args=..., kwargs=..., task_id=...)] *)
Definition apply_async (t : Task) : M unit :=
  outcome ;;
  s ← get_state;
  put_tasks (faults s) (next_task_id s) (queue s ++ [t]) ;;
  emit (Dispatched t).

(** [TaskStatus.request_abort]: a request, which the task may honour
    later. *)
Definition request_abort (task : Z) : M unit := emit (AbortRequested task).

(** ** The index engine *)

Definition put_solr (d : gmap string (gmap string SolrRow)) (c : gmap string string)
    (n : nat) : M unit := λ s,
  (Return (),
   mkState (self s) (db s) (concurrent s) (clock s) (ticks s) (uuids s) n
     (faults s) (next_task_id s) d c (queue s) (log s)).

(** The rows of one dataset in the data core. *)
Definition rows_of (dataset_slug : string) (d : gmap string (gmap string SolrRow))
    : gmap string SolrRow :=
  default ∅ (d !! dataset_slug).

(** Modelled from the spec: [panda.solr.add] on the data core, which is not
    among the sources.  A document is keyed by dataset and external id and
    "add is idempotent-overwrite by key" (4.3). *)
Definition upsert (d : gmap string (gmap string SolrRow)) (r : SolrRow)
    : gmap string (gmap string SolrRow) :=
  <[r_dataset_slug r := <[r_external_id r := r]> (rows_of (r_dataset_slug r) d)]> d.

Definition solr_add (rows : list SolrRow) : M unit :=
  s ← get_state;
  put_solr (foldl upsert (data_core s) rows) (datasets_core s) (uuid_count s) ;;
  emit (SolrAdd SOLR_DATA_CORE rows).

(** Modelled from the spec: [panda.solr.delete], which is not among the
    sources.  "Query expressions are conjunctions of exact-match field
    filters" (6); a core has no document that matches a filter on a field
    of the other core. *)
Definition delete_rows (q : Query) (d : gmap string (gmap string SolrRow))
    : gmap string (gmap string SolrRow) :=
  match q with
  | ByDataset sl => delete sl d
  | ByDatasetAndId sl e => <[sl := delete e (rows_of sl d)]> d
  | BySlug _ => d
  end.

Definition delete_docs (q : Query) (c : gmap string string) : gmap string string :=
  match q with
  | BySlug sl => delete sl c
  | _ => c
  end.

Definition solr_delete (core : Core) (q : Query) : M unit :=
  s ← get_state;
  match core with
  | SOLR_DATA_CORE =>
      put_solr (delete_rows q (data_core s)) (datasets_core s) (uuid_count s)
  | SOLR_DATASETS_CORE =>
      put_solr (data_core s) (delete_docs q (datasets_core s)) (uuid_count s)
  end ;;
  emit (SolrDelete core (render q)).

(** Modelled from the spec: [numFound] of [panda.solr.query] on the data
    core for a dataset scope, the number of documents of the dataset. *)
Definition numFound (dataset_slug : string) (d : gmap string (gmap string SolrRow)) : Z :=
  Z.of_nat (size (rows_of dataset_slug d)).

(** [Dataset._count_rows] (lines 391-396) *)
Definition _count_rows : M Z :=
  this ← get_fields;
  emit (SolrQuery SOLR_DATA_CORE (render (ByDataset (slug this)))) ;;
  s ← get_state;
  mret (numFound (slug this) (data_core s)).

(** Modelled from the spec: [utils.solr.make_data_row], which is not among
    the sources: "builds one document keyed by dataset+externalId
    (externalId may be system-generated if absent)" (4.3). *)
Definition make_data_row (data : list string) (external_id : option string) : M SolrRow :=
  this ← get_fields;
  match external_id with
  | Some e => mret (mkSolrRow (slug this) e data)
  | None =>
      s ← get_state;
      put_solr (data_core s) (datasets_core s) (S (uuid_count s)) ;;
      mret (mkSolrRow (slug this) (uuids s (uuid_count s)) data)
  end.

(** ** Import, reindex and export (lines 194-295) *)

Section Orchestrator.

Variable nfkd_ascii : string -> string.

(** [panda.tasks.get_import_task_type_for_upload] and the [name] of
    [ExportCSVTask] are declared in [panda.tasks], which is not among the
    sources. *)
Variable get_import_task_type_for_upload : DataUpload -> option TaskType.
Variable ExportCSVTask_name : string.

(** [lock(); try: body except: unlock(); raise], the frame of the three
    methods. *)
Definition guarded (body : M unit) : M unit :=
  lock ;; try_except_reraise body unlock.

(** [self.column_schema.append({...})] for the columns of the upload from
    position [i] on (lines 217-225). *)
Fixpoint append_columns (i : nat) (columns guessed_types : list string) : M unit :=
  match columns with
  | [] => mret ()
  | c :: rest =>
      match guessed_types !! i with
      | None => raise (IndexError "list index out of range")
      | Some t =>
          this ← get_fields;
          assign (set_column_schema
                    (Some (default [] (column_schema this)
                           ++ [mkColumn c false t None None None]))) ;;
          append_columns (S i) rest guessed_types
      end
  end.

(** The columns of the upload against the schema of the dataset, or the
    schema made from them when the dataset has none (lines 210-225). *)
Definition check_or_create_schema (upload : DataUpload) : M unit :=
  this ← get_fields;
  match column_schema this with
  | Some (c :: cs) =>
      if decide (u_columns upload ≠ c_name <$> (c :: cs))
      then raise SchemaMismatch else mret ()
  | _ =>
      assign (set_column_schema (Some [])) ;;
      append_columns 0 (u_columns upload) (u_guessed_types upload)
  end.

(** The rest of the [try] block of [import_data], from the sample data to
    the dispatch of the task (lines 227-241). *)
Definition start_import (user : Z) (upload : DataUpload) (task_type : TaskType)
    (external_id_field_index : option Z) : M unit :=
  this ← get_fields;
  (if sample_data this is None
   then assign (set_sample_data (u_sample_data upload)) else mret ()) ;;
  this ← get_fields;
  (if initial_upload this is None
   then (if row_count this is None
         then assign (set_initial_upload (Some (u_id upload))) else mret ())
   else mret ()) ;;
  task ← TaskStatus_objects_create (tt_name task_type) user;
  assign (set_current_task (Some task)) ;;
  save ;;
  this ← get_fields;
  apply_async (ImportTask (tt_name task_type) (slug this) (u_id upload)
                 external_id_field_index task).

(** The [try] block of [import_data] (lines 201-241). *)
Definition import_data_body (user : Z) (upload : DataUpload)
    (external_id_field_index : option Z) : M unit :=
  if u_imported upload then raise AlreadyImported
  else
    match get_import_task_type_for_upload upload with
    | None => raise UnsupportedFileType
    | Some task_type =>
        check_or_create_schema upload ;;
        start_import user upload task_type external_id_field_index
    end.

(** [Dataset.import_data] *)
Definition import_data (user : Z) (upload : DataUpload)
    (external_id_field_index : option Z) : M unit :=
  guarded (import_data_body user upload external_id_field_index).

(** [self.column_schema[i][key] = t] through [update], for the values from
    position [i] on (lines 254-255 and 258-259). *)
Fixpoint override {A} (update : A -> ColumnDescriptor -> ColumnDescriptor)
    (i : nat) (values : list A) : M unit :=
  match values with
  | [] => mret ()
  | t :: rest =>
      this ← get_fields;
      match column_schema this with
      | None => raise (TypeError "'NoneType' object has no attribute '__getitem__'")
      | Some schema =>
          match schema !! i with
          | None => raise (IndexError "list index out of range")
          | Some c =>
              assign (set_column_schema (Some (<[i := update t c]> schema))) ;;
              override update (S i) rest
          end
      end
  end.

(** [self._generate_typed_column_names()] on the instance.  The fuel is one
    more than the number of columns. *)
Definition generate_typed_column_names : M unit :=
  this ← get_fields;
  match column_schema this with
  | None => raise (TypeError "'NoneType' object is not iterable")
  | Some schema =>
      match _generate_typed_column_names nfkd_ascii (S (length schema)) schema with
      | None => out_of_fuel
      | Some schema' => assign (set_column_schema (Some schema'))
      end
  end.

(** The [try] block of [reindex_data] (lines 253-271). *)
Definition reindex_data_body (user : Z) (typed_columns : option (list bool))
    (column_types : option (list string)) : M unit :=
  match typed_columns with
  | Some (t :: ts) => override set_indexed 0 (t :: ts)
  | _ => mret ()
  end ;;
  match column_types with
  | Some (t :: ts) => override set_type 0 (t :: ts)
  | _ => mret ()
  end ;;
  generate_typed_column_names ;;
  task ← TaskStatus_objects_create "panda.tasks.reindex" user;
  assign (set_current_task (Some task)) ;;
  save ;;
  this ← get_fields;
  apply_async (ReindexTask (slug this) task).

(** [Dataset.reindex_data] *)
Definition reindex_data (user : Z) (typed_columns : option (list bool))
    (column_types : option (list string)) : M unit :=
  guarded (reindex_data_body user typed_columns column_types).

(** The [try] block of [export_data] (lines 283-292). *)
Definition export_data_body (user : Z) (filename : option string) : M unit :=
  task ← TaskStatus_objects_create ExportCSVTask_name user;
  assign (set_current_task (Some task)) ;;
  save ;;
  this ← get_fields;
  apply_async (ExportCSVTask (slug this) filename task).

(** [Dataset.export_data] *)
Definition export_data (user : Z) (filename : option string) : M unit :=
  guarded (export_data_body user filename).

End Orchestrator.

(** ** Rows (lines 308-389) *)

(** ['%i' % v] for a value that may be [None]. *)
Definition fmt_i_of (v : option Z) : M string :=
  match v with
  | Some n => mret (fmt_i n)
  | None => raise (TypeError "%d format: a number is required, not NoneType")
  end.

(** [if not self.sample_data: self.sample_data = []] *)
Definition ensure_sample_data : M unit :=
  this ← get_fields;
  match sample_data this with
  | Some (_ :: _) => mret ()
  | _ => assign (set_sample_data (Some []))
  end.

(** [Dataset.add_row] *)
Definition add_row (user : Z) (data : list string) (external_id : option string)
    : M SolrRow :=
  solr_row ← make_data_row data external_id;
  solr_add [solr_row] ;;
  ensure_sample_data ;;
  this ← get_fields;
  (if decide (length (default [] (sample_data this)) < 5)%nat
   then assign (set_sample_data (Some (default [] (sample_data this) ++ [data])))
   else mret ()) ;;
  this ← get_fields;
  let old_row_count := row_count this in
  count ← _count_rows;
  assign (set_row_count (Some count)) ;;
  let added := count - default 0 old_row_count in
  now ← datetime_now;
  assign (set_last_modified (Some now)) ;;
  assign (set_last_modified_by (Some user)) ;;
  assign (set_last_modification
            (Some ("1 row " +:+ (if decide (added ≠ 0) then "added" else "updated")))) ;;
  save ;;
  mret solr_row.

(** [[utils.solr.make_data_row(self, d[0], external_id=d[1]) for d in data]] *)
Fixpoint make_data_rows (data : list (list string * option string)) : M (list SolrRow) :=
  match data with
  | [] => mret []
  | d :: rest =>
      r ← make_data_row (fst d) (snd d);
      rs ← make_data_rows rest;
      mret (r :: rs)
  end.

(** The summary that [add_many_rows] writes (lines 356-361). *)
Definition many_rows_summary (added updated : Z) : string :=
  if decide (added ≠ 0) then
    if decide (updated ≠ 0)
    then fmt_i added +:+ " rows added and " +:+ fmt_i updated +:+ " updated"
    else fmt_i added +:+ " rows added"
  else fmt_i updated +:+ " rows updated".

(** [Dataset.add_many_rows] *)
Definition add_many_rows (user : Z) (data : list (list string * option string))
    : M (list SolrRow) :=
  solr_rows ← make_data_rows data;
  solr_add solr_rows ;;
  ensure_sample_data ;;
  this ← get_fields;
  (if decide (length (default [] (sample_data this)) < 5)%nat
   then
     let needed := (5 - length (default [] (sample_data this)))%nat in
     assign (set_sample_data
               (Some (default [] (sample_data this) ++ (fst <$> take needed data))))
   else mret ()) ;;
  this ← get_fields;
  let old_row_count := row_count this in
  count ← _count_rows;
  assign (set_row_count (Some count)) ;;
  let added := count - default 0 old_row_count in
  let updated := Z.of_nat (length data) - added in
  now ← datetime_now;
  assign (set_last_modified (Some now)) ;;
  assign (set_last_modified_by (Some user)) ;;
  assign (set_last_modification (Some (many_rows_summary added updated))) ;;
  save ;;
  mret solr_rows.

(** [Dataset.delete_row] *)
Definition delete_row (user : Z) (external_id : string) : M unit :=
  this ← get_fields;
  solr_delete SOLR_DATA_CORE (ByDatasetAndId (slug this) external_id) ;;
  count ← _count_rows;
  assign (set_row_count (Some count)) ;;
  now ← datetime_now;
  assign (set_last_modified (Some now)) ;;
  assign (set_last_modified_by (Some user)) ;;
  assign (set_last_modification (Some "1 row deleted")) ;;
  save.

(** [Dataset.delete_all_rows] *)
Definition delete_all_rows (user : Z) : M unit :=
  this ← get_fields;
  solr_delete SOLR_DATA_CORE (ByDataset (slug this)) ;;
  this ← get_fields;
  let old_row_count := row_count this in
  assign (set_row_count (Some 0)) ;;
  now ← datetime_now;
  assign (set_last_modified (Some now)) ;;
  summary ← fmt_i_of old_row_count;
  assign (set_last_modification (Some ("All " +:+ summary +:+ " rows deleted"))) ;;
  save.

(** ** Deletion (lines 184-192 and 398-405) *)

(** [on_dataset_delete], the receiver of [post_delete] for [Dataset]. *)
Definition on_dataset_delete (instance : Fields) : M unit :=
  apply_async (PurgeDataTask (slug instance)) ;;
  solr_delete SOLR_DATASETS_CORE (BySlug (slug instance)).

(** [models.Model.delete] for a [Dataset]: the row is removed, then
    [post_delete] is sent to its receivers, of which [on_dataset_delete] is
    the one this module registers.  The removal and the receivers run in
    one transaction of the record store: when a receiver raises, the
    removal is rolled back, so that the row is stored as before, and the
    exception goes on to the caller.  The log keeps the removal that was
    issued. *)
Definition Model_delete : M unit :=
  s ← get_state;
  put_db (delete (pk (self s)) (db s)) (concurrent s) ;;
  emit (RecordDeleted (pk (self s))) ;;
  try_except_reraise (on_dataset_delete (fields (self s)))
    (put_db (db s) (concurrent s)).

(** [Dataset.delete] *)
Definition delete_dataset : M unit :=
  this ← get_fields;
  (if current_task this is Some task then request_abort task else mret ()) ;;
  Model_delete.

(** Modelled from the spec: the run of a dispatched [PurgeDataTask], whose
    class is in [panda.tasks], not among the sources: it purges the
    row-level documents of the dataset (4.4, "purge all index-engine
    documents for the dataset (both row-level and catalog-level)").  Other
    tasks are left to the task subsystem. *)
Definition run_task (t : Task) : M unit :=
  match t with
  | PurgeDataTask sl => solr_delete SOLR_DATA_CORE (ByDataset sl)
  | _ => mret ()
  end.

(** A worker takes the oldest task of the queue and runs it. *)
Definition worker_step : M unit :=
  s ← get_state;
  match queue s with
  | [] => mret ()
  | t :: rest => put_tasks (faults s) (next_task_id s) rest ;; run_task t
  end.

(** ** Properties, in the terms of the model *)

(** The name given to an indexed column whose typed name is [base], when
    [assigned] holds what the columns before it received: [base] itself if
    it is not there yet, else [base] followed by the least number from 2 on
    that makes a name not there yet. *)
Definition assigned_name (base : string) (assigned : list (option string))
    (name : string) : Prop :=
  ((Some base ∉ assigned) ∧ name = base) ∨
  (Some base ∈ assigned ∧
   ∃ n : Z, 2 ≤ n ∧ name = base +:+ fmt_i n ∧ (Some name ∉ assigned) ∧
            ∀ k : Z, 2 ≤ k < n → Some (base +:+ fmt_i k) ∈ assigned).

(** What the naming reads of a descriptor. *)
Definition naming_input (c : ColumnDescriptor) : string * string * bool :=
  (c_name c, c_type c, c_indexed c).

(** The stored row of the dataset the state is about, as it is stored. *)
Definition stored (s : State) : option Fields := db s !! pk (self s).

(** [method] is [body] under the lock, and an exception of [body] leaves it
    with the lock released: whenever [lock] returned and [body] then raised
    [e], [method] raises [e], in a state where the instance and its stored
    row are unlocked and the last thing done was to save that row. *)
Definition releases_on_error (method body : M unit) : Prop :=
  ∀ (s : State) (e : Exception),
    fst (lock s) = Return () →
    fst (body (snd (lock s))) = Raise e →
    fst (method s) = Raise e ∧
    locked (self (snd (method s))) = false ∧
    (∃ row, stored (snd (method s)) = Some row ∧ locked row = false) ∧
    (∃ earlier row, log (snd (method s)) = earlier ++ [RecordSaved row] ∧
                    locked row = false).

(** The key under which [add_row] files a row: the [external_id] given, or
    the identifier that is generated next. *)
Definition row_key (s : State) (external_id : option string) : string :=
  match external_id with
  | Some e => e
  | None => uuids s (uuid_count s)
  end.

(** The rows of the dataset of [s] in the data core. *)
Definition own_rows (s : State) : gmap string SolrRow :=
  rows_of (slug (self s)) (data_core s).

(** The row count of the instance agrees with the data core, an unknown
    count standing for no row. *)
Definition row_count_in_sync (s : State) : Prop :=
  default 0 (row_count (self s)) = numFound (slug (self s)) (data_core s).

(** The next call that creates or dispatches a task is not scheduled to
    fail. *)
Definition next_call_succeeds (s : State) : Prop :=
  match faults s with
  | Some _ :: _ => False
  | _ => True
  end.

(** [m] raises nothing but what the task subsystem raises. *)
Definition task_errors_only {A} (m : M A) : Prop :=
  ∀ (s : State) (e : Exception),
    fst (m s) = Raise e → ∃ msg, e = TaskSubsystemError msg.

(** ** Sample inputs *)

(** On a name of ASCII characters the decomposition and the encoding change
    nothing. *)
Definition ascii_names : string -> string := λ s, s.

Definition csv_import : DataUpload -> option TaskType :=
  λ _, Some (mkTaskType "panda.tasks.import.csv").

Definition sample_schema : list ColumnDescriptor :=
  [mkColumn "First Name" true "unicode" None None None;
   mkColumn "first-name" true "unicode" None None None;
   mkColumn "Age" false "int" (Some "column_int_age") None None;
   mkColumn "  FIRST   name " true "unicode" None None None].

Definition schema_a_b : list ColumnDescriptor :=
  [mkColumn "a" false "unicode" None None None;
   mkColumn "b" false "unicode" None None None].

(** A dataset with columns [a] and [b], unlocked, without rows or task. *)
Definition sample_fields : Fields :=
  mkFields 7 "d" None (Some schema_a_b) None None None (Some 100) None None None
    false None.

(** A state around [this], stored as it is, with the given schedule of
    other processes and of failures and the given data core. *)
Definition state_of (this : Fields)
    (others : list (gmap Z Fields -> gmap Z Fields)) (fs : list (option string))
    (rows : gmap string (gmap string SolrRow)) : State :=
  mkState (mkDataset this None) {[pk this := this]} others
    (λ n, 1000 + Z.of_nat n) 0 (λ n, "generated-" +:+ pretty n) 0 fs 1
    rows {["d" := "full text"]} [] [].

Definition sample_state : State := state_of sample_fields [] [] ∅.

(** Another process takes the lock between our write and our second read. *)
Definition raced_state : State :=
  state_of sample_fields
    [id; <[7 := set_locked_at (Some 999) (set_locked true sample_fields)]>] [] ∅.

(** The task is created, its dispatch fails. *)
Definition failing_dispatch_state : State :=
  state_of sample_fields [] [None; Some "broker unreachable"] ∅.

(** An upload whose columns are [a] and [c]. *)
Definition upload_a_c (imported : bool) : DataUpload :=
  mkUpload 3 imported ["a"; "c"] ["unicode"; "unicode"] None.

(** An instance that does not know of the row [e1] the data core holds. *)
Definition stale_state : State :=
  state_of sample_fields [] [] (upsert ∅ (mkSolrRow "d" "e1" ["x"])).

Definition counted_state : State :=
  state_of (set_row_count (Some 42) sample_fields) [] [] ∅.

Definition busy_state : State :=
  state_of (set_current_task (Some 3) sample_fields) [] []
    (upsert ∅ (mkSolrRow "d" "e1" ["x"])).

(** [sample_state] after one row was added under [e1]. *)
Definition added_state : State := snd (add_row 1 ["x"] (Some "e1") sample_state).

(** Three new rows and two that repeat a key of the batch. *)
Definition batch_3_new_2_repeated : list (list string * option string) :=
  [(["a"], Some "k1"); (["b"], Some "k2"); (["c"], Some "k3");
   (["d"], Some "k1"); (["e"], Some "k2")].

(** * Column names *)

(** ** Reading a row (lines 297-306) *)

(** Modelled from the spec: the documents [panda.solr.query] finds on the
    data core, [panda.solr] not being among the sources.  A query is a
    conjunction of exact-match filters (6): on dataset and external id it
    finds the document of that key, if there is one. *)
Definition docs_found (q : Query) (d : gmap string (gmap string SolrRow)) : list SolrRow :=
  match q with
  | ByDataset sl => snd <$> map_to_list (rows_of sl d)
  | ByDatasetAndId sl e =>
      match rows_of sl d !! e with
      | Some r => [r]
      | None => []
      end
  | BySlug _ => []
  end.

(** [Dataset.get_row]: the query asks for one document at most
    ([limit=1]). *)
Definition get_row (external_id : string) : M (option SolrRow) :=
  this ← get_fields;
  emit (SolrQuery SOLR_DATA_CORE (render (ByDatasetAndId (slug this) external_id))) ;;
  s ← get_state;
  let docs := take 1 (docs_found (ByDatasetAndId (slug this) external_id) (data_core s)) in
  if decide (length docs < 1)%nat then mret None else mret (docs !! 0%nat).

(** ** More properties, in the terms of the model *)

(** Every character of [s] satisfies [p]. *)
Fixpoint all_chars (p : ascii -> bool) (s : string) : bool :=
  match s with
  | EmptyString => true
  | String c r => p c && all_chars p r
  end.

(** A lower-case letter, a digit or an underscore. *)
Definition slug_char (c : ascii) : bool :=
  let n := code c in
  (((48 <=? n) && (n <=? 57)) || ((97 <=? n) && (n <=? 122)) || (n =? 95))%N.

(** A character that is neither of a word nor a hyphen: punctuation, white
    space, a control or a non-ASCII byte. *)
Definition no_slug_source (c : ascii) : bool := negb (is_word c) && negb (is_hyphen c).

(** No other process commits to the table while the method runs. *)
Definition undisturbed (s : State) : Prop := concurrent s = [].

(** The stored row of the dataset exists and is not locked. *)
Definition free_in_store (s : State) : Prop :=
  ∃ row, stored s = Some row ∧ locked row = false.

(** The column a schema-defining import makes of a column name and its
    guessed type (lines 218-225). *)
Definition imported_column (name type : string) : ColumnDescriptor :=
  mkColumn name false type None None None.

(** The external ids of a batch whose rows all carry one. *)
Definition batch_keys (data : list (list string * option string)) : list string :=
  omap snd data.

(** A character [re.sub('[^\w\s-]', '', s)] keeps. *)
Definition kept_char (c : ascii) : bool := is_word c || is_space c || is_hyphen c.

(** A kept character after [lower]. *)
Definition lowered_char (c : ascii) : bool := slug_char c || is_space c || is_hyphen c.

(** Two indexed columns whose names are different as they are. *)
Definition distinct_schema : list ColumnDescriptor :=
  [mkColumn "Name" true "unicode" None None None;
   mkColumn "Age" true "int" None None None].

(** [s] with the schema of the instance replaced. *)
Definition with_schema (v : option (list ColumnDescriptor)) (s : State) : State :=
  snd (assign (set_column_schema v) s).

(** The end the three blocks under the lock share (lines 234-241, 263-271
    and 285-292): the task record is created and made the current task, the
    instance is saved, the task [mk this id] is dispatched. *)
Definition create_and_dispatch (task_name : string) (user : Z)
    (mk : Fields -> Z -> Task) : M unit :=
  task ← TaskStatus_objects_create task_name user;
  assign (set_current_task (Some task)) ;;
  save ;;
  this ← get_fields;
  apply_async (mk this task).

(** A schema after the positional overrides of [reindex_data]: the first
    columns take the values given, in order, the columns beyond them stay;
    no values, or an empty sequence of them, change nothing. *)
Definition overridden {A} (update : A -> ColumnDescriptor -> ColumnDescriptor)
    (values : option (list A)) (l : list ColumnDescriptor) : list ColumnDescriptor :=
  match values with
  | Some (v :: vs) => zip_with update (v :: vs) l ++ drop (length (v :: vs)) l
  | _ => l
  end.

(** What a first import keeps and what it sets (lines 227-232). *)
Definition sample_data_after (upload : DataUpload) (this : Fields)
    : option (list (list string)) :=
  match sample_data this with
  | None => u_sample_data upload
  | Some rows => Some rows
  end.

Definition initial_upload_after (upload : DataUpload) (this : Fields) : option Z :=
  match initial_upload this, row_count this with
  | None, None => Some (u_id upload)
  | previous, _ => previous
  end.

(** The overrides [values] are not more than the columns of [l]. *)
Definition fits {A} (values : option (list A)) (l : list ColumnDescriptor) : Prop :=
  (length (default [] values) ≤ length l)%nat.

(** The sample rows of an instance, none standing for no row. *)
Definition samples (this : Fields) : list (list string) := default [] (sample_data this).

(** The rows a batch whose rows all carry an external id files under the
    dataset [dataset_slug]. *)
Definition batch_rows (dataset_slug : string) (data : list (list string * option string))
    : list SolrRow :=
  omap (λ d, match snd d with
             | Some e => Some (mkSolrRow dataset_slug e (fst d))
             | None => None
             end) data.

(** Every row of the batch carries an external id. *)
Definition all_keyed (data : list (list string * option string)) : Prop :=
  Forall (λ d, is_Some (snd d)) data.

Section ColumnNamesFacts.

Variable nfkd_ascii : string -> string.

Lemma candidate_inj (name : string) (n m : Z) :
  name +:+ fmt_i n = name +:+ fmt_i m → n = m.
Proof.
  intros H. apply (inj (String.app name)) in H.
  unfold fmt_i in H. by apply (inj pretty) in H.
Qed.

(** A list cannot hold more distinct candidates than it has entries. *)
Lemma candidate_free (name : string) (typed : list (option string)) (n : Z) (fuel : nat) :
  (length typed < fuel)%nat →
  ∃ k, n ≤ k < n + Z.of_nat fuel ∧ Some (name +:+ fmt_i k) ∉ typed.
Proof.
  intros Hlen.
  destruct (decide (Forall (λ k, Some (name +:+ fmt_i k) ∈ typed) (seqZ n (Z.of_nat fuel))))
    as [Hall | Hnot].
  - exfalso.
    assert (Hsub : (λ k, Some (name +:+ fmt_i k)) <$> seqZ n (Z.of_nat fuel) ⊆+ typed).
    { apply NoDup_submseteq.
      - apply NoDup_fmap_2_strong; [| apply NoDup_seqZ].
        intros a b _ _ Hab. injection Hab as Hab. by apply candidate_inj in Hab.
      - intros x Hx. apply list_elem_of_fmap in Hx as (k & -> & Hk).
        rewrite Forall_forall in Hall. by apply Hall. }
    apply submseteq_length in Hsub.
    rewrite length_fmap, length_seqZ in Hsub. lia.
  - apply not_Forall_Exists in Hnot; [| apply _].
    apply Exists_exists in Hnot as (k & Hk & Hfree).
    apply elem_of_seqZ in Hk. exists k. split; [lia | exact Hfree].
Qed.

(** The loop stops at the first free candidate, if the fuel reaches it. *)
Lemma while_test_name_stops (name : string) (typed : list (option string)) (fuel : nat) :
  ∀ n k, n ≤ k < n + Z.of_nat fuel →
    Some (name +:+ fmt_i k) ∉ typed →
    ∃ r, while_test_name fuel name typed n = Some r.
Proof.
  induction fuel as [| fuel IH]; intros n k Hk Hfree; [lia |].
  simpl. case_decide as Hin; [| eauto].
  apply (IH (n + 1) k); [| done].
  assert (k ≠ n) by (intros ->; done). lia.
Qed.

Lemma while_test_name_result (name : string) (typed : list (option string)) (fuel : nat) :
  ∀ n r, while_test_name fuel name typed n = Some r →
    ∃ k, n ≤ k ∧ r = name +:+ fmt_i k ∧ (Some r ∉ typed) ∧
         ∀ j, n ≤ j < k → Some (name +:+ fmt_i j) ∈ typed.
Proof.
  induction fuel as [| fuel IH]; intros n r Hr; [done |].
  simpl in Hr. case_decide as Hin.
  - apply IH in Hr as (k & Hk & -> & Hfree & Hbelow).
    exists k. split_and!; [lia | done | done |].
    intros j Hj. destruct (decide (j = n)) as [-> | ?]; [done |].
    apply Hbelow. lia.
  - injection Hr as <-. exists n. split_and!; [lia | done | done | intros; lia].
Qed.

Lemma deduplicate_total (name : string) (typed : list (option string)) (fuel : nat) :
  (length typed < fuel)%nat → ∃ r, deduplicate fuel name typed = Some r.
Proof.
  intros Hlen. unfold deduplicate. case_decide; [| eauto].
  destruct (candidate_free name typed 2 fuel Hlen) as (k & Hk & Hfree).
  by apply (while_test_name_stops name typed fuel 2 k).
Qed.

Lemma deduplicate_result (name : string) (typed : list (option string)) (fuel : nat) (r : string) :
  deduplicate fuel name typed = Some r → assigned_name name typed r.
Proof.
  unfold deduplicate, assigned_name. case_decide as Hin; intros Hr.
  - right. split; [done |].
    apply while_test_name_result in Hr as (k & Hk & -> & Hfree & Hbelow). eauto.
  - left. by injection Hr as <-.
Qed.

Lemma assigned_name_fresh (base : string) (assigned : list (option string)) (name : string) :
  assigned_name base assigned name → Some name ∉ assigned.
Proof. intros [[? ->] | [_ (n & _ & _ & ? & _)]]; done. Qed.

(** The column loop returns, and each column gets the name the claim
    describes, relative to the names of the columns before it. *)
Lemma generate_from_spec (fuel : nat) (cs : list ColumnDescriptor) :
  ∀ typed : list (option string),
    (length typed + length cs < fuel)%nat →
    ∃ out, generate_from nfkd_ascii fuel typed cs = Some out ∧
      length out = length cs ∧
      ∀ i c, cs !! i = Some c →
        ∃ c', out !! i = Some c' ∧ c' = set_indexed_name (c_indexed_name c') c ∧
          (c_indexed c = false → c_indexed_name c' = None) ∧
          (c_indexed c = true →
           ∃ name, c_indexed_name c' = Some name ∧
             assigned_name (typed_name nfkd_ascii c)
               (typed ++ (c_indexed_name <$> take i out)) name).
Proof.
  induction cs as [| c cs IH]; intros typed Hlen; simpl in *.
  - exists []. split_and!; [done | done | intros i c Hi; done].
  - destruct (c_indexed c) eqn:Hidx; simpl.
    + destruct (deduplicate_total (typed_name nfkd_ascii c) typed fuel) as [r Hr]; [lia |].
      rewrite Hr. simpl.
      destruct (IH (typed ++ [Some r])) as (out & Hout & Hl & Hcols).
      { rewrite length_app. simpl. lia. }
      rewrite Hout. simpl. eexists. split_and!; [done | simpl; lia |].
      intros [| i] c0 Hi; simpl in *.
      * injection Hi as <-. eexists. split_and!; [done | done | congruence |].
        intros _. exists r. split; [done |].
        rewrite app_nil_r. by apply deduplicate_result in Hr.
      * destruct (Hcols i c0 Hi) as (c' & Hc' & Heq & Hno & Hyes).
        exists c'. split_and!; [done | done | done |].
        intros Ht. destruct (Hyes Ht) as (name & Hname & Hass).
        exists name. split; [done |]. by rewrite <- app_assoc in Hass.
    + destruct (IH (typed ++ [None])) as (out & Hout & Hl & Hcols).
      { rewrite length_app. simpl. lia. }
      rewrite Hout. simpl. eexists. split_and!; [done | simpl; lia |].
      intros [| i] c0 Hi; simpl in *.
      * injection Hi as <-. eexists. split_and!; [done | done | done | congruence].
      * destruct (Hcols i c0 Hi) as (c' & Hc' & Heq & Hno & Hyes).
        exists c'. split_and!; [done | done | done |].
        intros Ht. destruct (Hyes Ht) as (name & Hname & Hass).
        exists name. split; [done |]. by rewrite <- app_assoc in Hass.
Qed.

(** The names present in a list of optional names. *)
Lemma generate_from_NoDup (fuel : nat) (cs : list ColumnDescriptor) :
  ∀ (typed : list (option string)) out,
    generate_from nfkd_ascii fuel typed cs = Some out →
    NoDup (omap id typed) →
    NoDup (omap id (typed ++ (c_indexed_name <$> out))).
Proof.
  induction cs as [| c cs IH]; intros typed out Hout Hnd; simpl in Hout.
  - injection Hout as <-. by rewrite app_nil_r.
  - destruct (c_indexed c); simpl in Hout.
    + destruct (deduplicate fuel (typed_name nfkd_ascii c) typed) as [r |] eqn:Hr; [| done].
      simpl in Hout.
      destruct (generate_from nfkd_ascii fuel (typed ++ [Some r]) cs) as [rest |] eqn:Hrest;
        [| done].
      injection Hout as <-. rewrite fmap_cons, cons_middle, app_assoc. simpl.
      apply (IH _ _ Hrest).
      rewrite omap_app. simpl. apply NoDup_app. split_and!; [done | | apply NoDup_singleton].
      intros x Hx Hx'. apply list_elem_of_singleton in Hx' as ->.
      apply list_elem_of_omap in Hx as (o & Ho & Hox). simpl in Hox. subst o.
      apply deduplicate_result, assigned_name_fresh in Hr. done.
    + destruct (generate_from nfkd_ascii fuel (typed ++ [None]) cs) as [rest |] eqn:Hrest;
        [| done].
      injection Hout as <-. rewrite fmap_cons, cons_middle, app_assoc. simpl.
      apply (IH _ _ Hrest).
      rewrite omap_app. simpl. by rewrite app_nil_r.
Qed.

Lemma NoDup_omap_lookup (l : list (option string)) :
  NoDup (omap id l) →
  ∀ i j x, l !! i = Some (Some x) → l !! j = Some (Some x) → i = j.
Proof.
  induction l as [| o l IH]; intros Hnd i j x Hi Hj; [done |].
  assert (Hin : ∀ k, l !! k = Some (Some x) → x ∈ omap id l).
  { intros k Hk. apply list_elem_of_omap. exists (Some x).
    split; [by eapply list_elem_of_lookup_2 | done]. }
  destruct o as [y |]; simpl in Hnd.
  - apply NoDup_cons in Hnd as [Hy Hnd].
    destruct i as [| i], j as [| j]; simpl in *.
    + done.
    + injection Hi as ->. exfalso. apply Hy. by eapply Hin.
    + injection Hj as ->. exfalso. apply Hy. by eapply Hin.
    + f_equal. by eapply IH.
  - destruct i as [| i], j as [| j]; simpl in *; try done.
    f_equal. by eapply IH.
Qed.

(** The names depend on the names, types and [indexed] flags of the
    columns, in their order, and on nothing else. *)
Lemma generate_from_input (fuel : nat) (cs : list ColumnDescriptor) :
  ∀ (cs' : list ColumnDescriptor) (typed : list (option string)),
    naming_input <$> cs' = naming_input <$> cs →
    fmap (M := list) c_indexed_name <$> generate_from nfkd_ascii fuel typed cs' =
    fmap (M := list) c_indexed_name <$> generate_from nfkd_ascii fuel typed cs.
Proof.
  induction cs as [| c cs IH]; intros [| c' cs'] typed Heq;
    rewrite ?fmap_cons, ?fmap_nil in Heq; try discriminate Heq; [done |].
  injection Heq as Hn Ht Hi Hcs.
  simpl. rewrite Hi.
  assert (Htn : typed_name nfkd_ascii c' = typed_name nfkd_ascii c).
  { unfold typed_name. by rewrite Hn, Ht. }
  rewrite Htn.
  destruct (c_indexed c); simpl.
  - destruct (deduplicate fuel (typed_name nfkd_ascii c) typed) as [r |]; [| done]. simpl.
    specialize (IH cs' (typed ++ [Some r]) Hcs).
    destruct (generate_from nfkd_ascii fuel (typed ++ [Some r]) cs'),
             (generate_from nfkd_ascii fuel (typed ++ [Some r]) cs); simpl in *;
      try done.
    injection IH as IH. do 2 f_equal. exact IH.
  - specialize (IH cs' (typed ++ [None]) Hcs).
    destruct (generate_from nfkd_ascii fuel (typed ++ [None]) cs'),
             (generate_from nfkd_ascii fuel (typed ++ [None]) cs); simpl in *;
      try done.
    injection IH as IH. do 2 f_equal. exact IH.
Qed.

(** C3.  For every ordered column schema and enough fuel (more than the
    number of columns), [_generate_typed_column_names] returns a schema of
    the same length in which: a column differs from its source at most by
    [indexed_name]; a column not flagged [indexed] has no [indexed_name]; an
    indexed column is named [column_<type>_<slug>], where the slug is the
    name after the decomposition step, the removal of what is neither a
    word character, white space nor a hyphen, [strip], [lower] and the
    replacement of every run of hyphens and white space by one underscore,
    followed, when that name was assigned before, by the least number from
    2 on that gives a name not assigned so far; no name is assigned to two
    columns; and the names are a function of the ordered names, types and
    flags of the columns alone. *)
Theorem generate_typed_column_names_spec (fuel : nat) (schema : list ColumnDescriptor) :
  (length schema < fuel)%nat →
  ∃ out, _generate_typed_column_names nfkd_ascii fuel schema = Some out ∧
    length out = length schema ∧
    (∀ i c, schema !! i = Some c →
       ∃ c', out !! i = Some c' ∧ c' = set_indexed_name (c_indexed_name c') c ∧
         (c_indexed c = false → c_indexed_name c' = None) ∧
         (c_indexed c = true →
          let slug := sub_runs false (lower (strip (sub_non_word (nfkd_ascii (c_name c))))) in
          ∃ name, c_indexed_name c' = Some name ∧
            assigned_name ("column_" +:+ c_type c +:+ "_" +:+ slug)
              (c_indexed_name <$> take i out) name)) ∧
    (∀ i j name,
       c_indexed_name <$> out !! i = Some (Some name) →
       c_indexed_name <$> out !! j = Some (Some name) → i = j) ∧
    (∀ schema', naming_input <$> schema' = naming_input <$> schema →
       ∃ out', _generate_typed_column_names nfkd_ascii fuel schema' = Some out' ∧
         c_indexed_name <$> out' = c_indexed_name <$> out).
Proof.
  intros Hlen. unfold _generate_typed_column_names.
  destruct (generate_from_spec fuel schema []) as (out & Hout & Hl & Hcols);
    [simpl; lia |].
  exists out. split_and!; [done | done | exact Hcols | |].
  - intros i j name Hi Hj.
    pose proof (generate_from_NoDup fuel schema [] out Hout (NoDup_nil_2)) as Hnd.
    simpl in Hnd.
    apply (NoDup_omap_lookup _ Hnd i j name); by rewrite list_lookup_fmap.
  - intros schema' Hin.
    pose proof (generate_from_input fuel schema schema' [] Hin) as Heq.
    rewrite Hout in Heq. simpl in Heq.
    destruct (generate_from nfkd_ascii fuel [] schema') as [out' |]; [| done].
    exists out'. split; [done |]. simpl in Heq. by injection Heq.
Qed.

End ColumnNamesFacts.

(** The sample schema: two names that slug to [first_name] follow the
    first and get the suffixes 2 and 3; the column that is not indexed
    loses the name it had. *)
Example generate_sample_schema :
  fmap (M := list) c_indexed_name <$> _generate_typed_column_names ascii_names 5 sample_schema
  = Some [Some "column_unicode_first_name"; Some "column_unicode_first_name2"; None;
          Some "column_unicode_first_name3"].
Proof. vm_compute. reflexivity. Qed.

Lemma generate_typed_column_names_spec_witness :
  (length sample_schema < 5)%nat ∧
  ∃ out, _generate_typed_column_names ascii_names 5 sample_schema = Some out ∧
    c_indexed_name <$> out
      = [Some "column_unicode_first_name"; Some "column_unicode_first_name2"; None;
         Some "column_unicode_first_name3"] ∧
    ∃ name, c_indexed_name <$> out !! 1%nat = Some (Some name) ∧
      assigned_name "column_unicode_first_name" (c_indexed_name <$> take 1 out) name.
Proof.
  assert (H : (length sample_schema < 5)%nat) by (simpl; lia).
  split; [exact H |].
  destruct (generate_typed_column_names_spec ascii_names 5 sample_schema H)
    as (out & Hout & _ & Hcols & _).
  exists out. split; [exact Hout |].
  split.
  - assert (Hrun : _generate_typed_column_names ascii_names 5 sample_schema
                   = Some [mkColumn "First Name" true "unicode"
                             (Some "column_unicode_first_name") None None;
                           mkColumn "first-name" true "unicode"
                             (Some "column_unicode_first_name2") None None;
                           mkColumn "Age" false "int" None None None;
                           mkColumn "  FIRST   name " true "unicode"
                             (Some "column_unicode_first_name3") None None])
      by (vm_compute; reflexivity).
    rewrite Hrun in Hout. injection Hout as <-. reflexivity.
  - destruct (Hcols 1%nat (mkColumn "first-name" true "unicode" None None None) eq_refl)
      as (c' & Hc' & _ & _ & Hname).
    destruct (Hname eq_refl) as (name & Hn & Hassigned).
    exists name. split; [by rewrite Hc'; simpl; rewrite Hn | exact Hassigned].
Defined.

(** The fuel [reindex_data] gives the naming is enough: the method never
    stops for lack of it. *)
Lemma generate_typed_column_names_fuel (nfkd_ascii : string → string) (s : State) :
  fst (generate_typed_column_names nfkd_ascii s) ≠ OutOfFuel.
Proof.
  unfold generate_typed_column_names. cbv [mbind M_bind get_fields].
  destruct (column_schema (self s)) as [schema |]; [| done].
  destruct (generate_from_spec nfkd_ascii (S (length schema)) schema [])
    as (out & Hout & _); [simpl; lia |].
  unfold _generate_typed_column_names. by rewrite Hout.
Qed.

(** * Locking *)

(** Evaluation of a method on a state given by its components. *)
Ltac run :=
  cbv beta iota zeta delta
    [mbind M_bind mret M_ret raise out_of_fuel try_except_reraise
     get_state get_self get_fields put_self assign emit datetime_now put_db
     objects_get Model_save save put_tasks outcome put_solr visible
     TaskStatus_objects_create apply_async request_abort solr_add solr_delete
     _count_rows make_data_row fmt_i_of ensure_sample_data on_dataset_delete
     Model_delete run_task
     fst snd with_fields set_lock_id
     self db concurrent clock ticks uuids uuid_count faults next_task_id
     data_core datasets_core queue log]; cbn.

Tactic Notation "open_state" ident(s) :=
  destruct s as [[[id sl upload0 schema sample rows task created modified summary
                   modifier is_locked token] attr]
                 table others time tick ids idc fs next rows_core docs_core tasks events].

(** C1.  Let [before] be the row of the dataset that [lock] reads first.
    If [before] is locked, [lock] raises [DatasetLocked] and writes nothing:
    the table is as it was read and nothing is logged.  Otherwise [lock]
    saves a row that is locked with the next reading of the clock as its
    token, and reads the row again after what the other processes
    committed meanwhile; whenever the token read back differs from the one
    saved, [lock] raises [DatasetLocked], and it returns exactly when the
    two are equal. *)
Theorem lock_protocol (s : State) (before : Fields) :
  visible s !! pk (self s) = Some before →
  (locked before = true →
     fst (lock s) = Raise DatasetLocked ∧
     db (snd (lock s)) = visible s ∧ log (snd (lock s)) = log s) ∧
  (locked before = false →
     ∃ written : Fields,
       locked written = true ∧ locked_at written = Some (clock s (ticks s)) ∧
       log (snd (lock s)) = log s ++ [RecordSaved written] ∧
       db (snd (lock s)) =
         after_others (tail (concurrent s)) (<[pk (self s) := written]> (visible s)) ∧
       ∀ after : Fields,
         db (snd (lock s)) !! pk (self s) = Some after →
         (locked_at after ≠ Some (clock s (ticks s)) →
          fst (lock s) = Raise DatasetLocked) ∧
         (fst (lock s) = Return () ↔ locked_at after = Some (clock s (ticks s)))).
Proof.
  intros Hb. open_state s. unfold visible in *. cbn in Hb |- *.
  split; intros Hl.
  - unfold lock. run. rewrite Hb. cbn. rewrite Hl. done.
  - unfold lock. run. rewrite Hb. cbn. rewrite Hl. cbn.
    destruct created; cbn;
      match goal with
      | |- context [after_others (tail others) ?m !! id] =>
          destruct (after_others (tail others) m !! id) as [after |] eqn:Hafter
      end; cbn;
      try (destruct (decide (locked_at after ≠ Some (time tick))) as [Hne | Heq]; cbn);
      (match goal with |- context [RecordSaved ?w] => exists w end;
       split_and!; [reflexivity | reflexivity | reflexivity | reflexivity |];
       intros after' Ha'; rewrite Hafter in Ha'; try done; injection Ha' as <-);
      split; try done; split; try done;
      intros _; by apply dec_stable in Heq.
Qed.

(** Another process writes its own token between our write and our second
    read: [lock] raises. *)
Lemma lock_protocol_witness :
  visible raced_state !! pk (self raced_state) = Some sample_fields ∧
  fst (lock raced_state) = Raise DatasetLocked.
Proof.
  assert (H : visible raced_state !! pk (self raced_state) = Some sample_fields)
    by (vm_compute; reflexivity).
  split; [exact H |].
  destruct (lock_protocol raced_state sample_fields H) as [_ Hfree].
  destruct (Hfree eq_refl) as (written & _ & _ & _ & _ & Hafter).
  apply (Hafter (set_locked_at (Some 999) (set_locked true sample_fields)));
    [vm_compute; reflexivity | vm_compute; discriminate].
Defined.

Example lock_twice_then_unlock :
  fst (lock sample_state) = Return () ∧
  fst ((lock ;; lock) sample_state) = Raise DatasetLocked ∧
  fst ((lock ;; unlock ;; lock) sample_state) = Return ().
Proof. vm_compute. done. Qed.

(** [unlock] returns, clears [locked] in memory and in the stored row,
    assigns [lock_id], and leaves [locked_at] as it was. *)
Lemma unlock_effect (s : State) :
  fst (unlock s) = Return () ∧
  locked (self (snd (unlock s))) = false ∧
  locked_at (self (snd (unlock s))) = locked_at (self s) ∧
  lock_id (self (snd (unlock s))) = Some None ∧
  pk (self (snd (unlock s))) = pk (self s) ∧
  db (snd (unlock s)) !! pk (self s) = Some (fields (self (snd (unlock s)))) ∧
  ∃ earlier, log (snd (unlock s)) = earlier ++ [RecordSaved (fields (self (snd (unlock s))))].
Proof.
  open_state s. unfold unlock. run.
  destruct created; cbn; split_and!; try done;
    try apply lookup_insert_eq; by eexists.
Qed.

Lemma guarded_run (body : M unit) (s s1 : State) :
  lock s = (Return (), s1) → guarded body s = try_except_reraise body unlock s1.
Proof. intros H. unfold guarded. cbv [mbind M_bind]. by rewrite H. Qed.

Lemma try_except_reraise_raise (body handler : M unit) (s s2 : State) (e : Exception) :
  body s = (Raise e, s2) → fst (handler s2) = Return () →
  try_except_reraise body handler s = (Raise e, snd (handler s2)).
Proof.
  intros Hb Hh. unfold try_except_reraise. rewrite Hb.
  cbv [mbind M_bind raise]. by destruct (handler s2) as [[] ?]; simplify_eq/=.
Qed.

(** Whatever the guarded block is: if it raises once the lock is held, the
    method raises the same exception, and it does so in the state that
    [unlock] left. *)
Lemma guarded_releases (body : M unit) (s : State) (e : Exception) :
  fst (lock s) = Return () →
  fst (body (snd (lock s))) = Raise e →
  guarded body s = (Raise e, snd (unlock (snd (body (snd (lock s)))))).
Proof.
  intros Hl Hb. destruct (lock s) as [r s1] eqn:Hlock. simpl in *. subst r.
  rewrite (guarded_run body s s1 Hlock).
  destruct (body s1) as [rb s2] eqn:Hbody. simpl in *. subst rb.
  apply try_except_reraise_raise; [done | apply unlock_effect].
Qed.

(** C2.  [unlock] on a dataset that holds the lock with token 1000: it
    returns, the instance and the stored row are unlocked, and [locked_at]
    is still the token in both; what became [None] is the attribute
    [lock_id] of the instance. *)
Theorem unlock_keeps_locked_at :
  let held := snd (lock sample_state) in
  locked (self held) = true ∧ locked_at (self held) = Some 1000 ∧
  fst (unlock held) = Return () ∧
  locked (self (snd (unlock held))) = false ∧
  locked_at (self (snd (unlock held))) = Some 1000 ∧
  lock_id (self (snd (unlock held))) = Some None ∧
  (locked <$> stored (snd (unlock held))) = Some false ∧
  (locked_at <$> stored (snd (unlock held))) = Some (Some 1000) ∧
  snd (unlock (snd (unlock held))) =
    snd (emit (RecordSaved (fields (self (snd (unlock held))))) (snd (unlock held))).
Proof. vm_compute. by repeat split. Qed.

Lemma releases_on_error_guarded (body : M unit) : releases_on_error (guarded body) body.
Proof.
  intros s e Hl Hb. rewrite (guarded_releases body s e Hl Hb). simpl.
  destruct (unlock_effect (snd (body (snd (lock s)))))
    as (_ & Hm & _ & _ & Hpk & Hdb & earlier & Hlog).
  split_and!; [done | done | |].
  - eexists. unfold stored. rewrite Hpk. split; [exact Hdb | exact Hm].
  - exists earlier. eexists. split; [exact Hlog | exact Hm].
Qed.

(** C4.  [import_data], [reindex_data] and [export_data], for all their
    arguments: when [lock] has returned and the block under it raises an
    exception, the method raises that same exception, and by then [unlock]
    has run: the instance and its stored row are unlocked and that save is
    the last thing done. *)
Theorem lock_released_on_error
    (nfkd_ascii : string → string)
    (get_import_task_type_for_upload : DataUpload → option TaskType)
    (ExportCSVTask_name : string) (user : Z) :
  (∀ upload external_id_field_index,
     releases_on_error
       (import_data get_import_task_type_for_upload user upload external_id_field_index)
       (import_data_body get_import_task_type_for_upload user upload
          external_id_field_index)) ∧
  (∀ typed_columns column_types,
     releases_on_error
       (reindex_data nfkd_ascii user typed_columns column_types)
       (reindex_data_body nfkd_ascii user typed_columns column_types)) ∧
  (∀ filename,
     releases_on_error
       (export_data ExportCSVTask_name user filename)
       (export_data_body ExportCSVTask_name user filename)).
Proof. split_and!; intros; apply releases_on_error_guarded. Qed.

(** The dispatch of an export fails after the task record was created: the
    failure reaches the caller and the dataset is unlocked. *)
Lemma lock_released_on_error_witness :
  fst (lock failing_dispatch_state) = Return () ∧
  fst (export_data_body "panda.tasks.export.csv" 1 None (snd (lock failing_dispatch_state)))
    = Raise (TaskSubsystemError "broker unreachable") ∧
  fst (export_data "panda.tasks.export.csv" 1 None failing_dispatch_state)
    = Raise (TaskSubsystemError "broker unreachable") ∧
  locked (self (snd (export_data "panda.tasks.export.csv" 1 None failing_dispatch_state)))
    = false.
Proof.
  assert (Hl : fst (lock failing_dispatch_state) = Return ()) by (vm_compute; reflexivity).
  assert (Hb : fst (export_data_body "panda.tasks.export.csv" 1 None
                      (snd (lock failing_dispatch_state)))
               = Raise (TaskSubsystemError "broker unreachable"))
    by (vm_compute; reflexivity).
  split; [exact Hl |]. split; [exact Hb |].
  destruct (lock_released_on_error ascii_names csv_import "panda.tasks.export.csv" 1)
    as (_ & _ & Hexport).
  destruct (Hexport None failing_dispatch_state _ Hl Hb) as (Hr & Hm & _).
  split; [exact Hr | exact Hm].
Defined.

(** More overrides than columns: [reindex_data] raises [IndexError] and the
    dataset is unlocked.  An upload imported before: [import_data] raises
    [AlreadyImported] and the dataset is unlocked. *)
Example reindex_data_too_many_overrides :
  fst (reindex_data ascii_names 1 (Some [true; true; true]) None sample_state)
    = Raise (IndexError "list index out of range") ∧
  (locked <$> stored (snd (reindex_data ascii_names 1 (Some [true; true; true]) None
                             sample_state))) = Some false.
Proof. vm_compute. done. Qed.

Example import_data_already_imported :
  fst (import_data csv_import 1 (upload_a_c true) None sample_state) = Raise AlreadyImported ∧
  (locked <$> stored (snd (import_data csv_import 1 (upload_a_c true) None sample_state)))
    = Some false.
Proof. vm_compute. done. Qed.

(** Without an exception the method returns with the lock held: the task
    releases it later. *)
Example export_data_keeps_lock :
  fst (export_data "panda.tasks.export.csv" 1 None sample_state) = Return () ∧
  (locked <$> stored (snd (export_data "panda.tasks.export.csv" 1 None sample_state)))
    = Some true ∧
  queue (snd (export_data "panda.tasks.export.csv" 1 None sample_state))
    = [ExportCSVTask "d" None 1].
Proof. vm_compute. done. Qed.

(** * Import *)

(** [lock] touches [locked] and [locked_at] only. *)
Lemma lock_frame (s : State) :
  pk (self (snd (lock s))) = pk (self s) ∧
  slug (self (snd (lock s))) = slug (self s) ∧
  column_schema (self (snd (lock s))) = column_schema (self s) ∧
  row_count (self (snd (lock s))) = row_count (self s).
Proof.
  open_state s. unfold lock. run.
  destruct (after_others others table !! id) as [before |]; cbn; [| done].
  destruct (locked before); cbn; [done |].
  destruct created; cbn;
    match goal with
    | |- context [after_others (tail others) ?m !! id] =>
        destruct (after_others (tail others) m !! id) as [after |]
    end; cbn; try done; case_decide; done.
Qed.

Lemma task_errors_only_bind {A B} (m : M A) (k : A → M B) :
  task_errors_only m → (∀ a, task_errors_only (k a)) → task_errors_only (m ≫= k).
Proof.
  intros Hm Hk s e. cbv [mbind M_bind].
  destruct (m s) as [[a | e' |] s'] eqn:Hms; simpl; intros He; try done.
  - by apply (Hk a s').
  - injection He as <-. apply (Hm s). by rewrite Hms.
Qed.

Lemma task_errors_only_returns {A} (m : M A) :
  (∀ s, ∃ a, fst (m s) = Return a) → task_errors_only m.
Proof. intros H s e He. destruct (H s) as [a Ha]. congruence. Qed.

Lemma save_returns (s : State) : ∃ a, fst (save s) = Return a.
Proof. open_state s. run. destruct created; cbn; by eexists. Qed.

Lemma task_errors_only_outcome : task_errors_only outcome.
Proof.
  intros s e. unfold outcome. destruct (faults s) as [| [msg |] rest]; simpl; try done.
  intros [= <-]. by eexists.
Qed.

Lemma task_errors_only_create (task_name : string) (creator : Z) :
  task_errors_only (TaskStatus_objects_create task_name creator).
Proof.
  apply task_errors_only_bind; [apply task_errors_only_outcome |].
  intros _. apply task_errors_only_returns. intros s. by eexists.
Qed.

Lemma task_errors_only_apply_async (t : Task) : task_errors_only (apply_async t).
Proof.
  apply task_errors_only_bind; [apply task_errors_only_outcome |].
  intros _. apply task_errors_only_returns. intros s. by eexists.
Qed.

Lemma task_errors_only_start_import (user : Z) (upload : DataUpload)
    (task_type : TaskType) (external_id_field_index : option Z) :
  task_errors_only (start_import user upload task_type external_id_field_index).
Proof.
  unfold start_import.
  repeat first
    [ apply task_errors_only_create
    | apply task_errors_only_apply_async
    | apply task_errors_only_bind; [| intros ?]
    | apply task_errors_only_returns; intros s; first [apply save_returns | by eexists]
    | match goal with
      | |- task_errors_only (match ?x with _ => _ end) => destruct x
      end ].
Qed.

Lemma try_except_reraise_unlock (body : M unit) (s : State) (e : Exception) :
  fst (try_except_reraise body unlock s) = Raise e → fst (body s) = Raise e.
Proof.
  unfold try_except_reraise. destruct (body s) as [[[] | e' |] s2] eqn:Hb; simpl; try done.
  cbv [mbind M_bind raise]. destruct (unlock_effect s2) as [Hu _].
  destruct (unlock s2) as [[[] | |] s3]; simpl in *; congruence.
Qed.

(** What the check of the columns does when the dataset has a schema. *)
Lemma check_or_create_schema_run (upload : DataUpload) (s : State)
    (c : ColumnDescriptor) (cs : list ColumnDescriptor) :
  column_schema (self s) = Some (c :: cs) →
  check_or_create_schema upload s =
    (if decide (u_columns upload ≠ c_name <$> c :: cs)
     then Raise SchemaMismatch else Return (), s).
Proof.
  intros Hs. unfold check_or_create_schema. cbv [mbind M_bind get_fields].
  rewrite Hs. by case_decide.
Qed.

(** C5, as amended.  For a dataset that has a schema of at least one
    column: once the lock is held, the upload was not imported before and a
    task type is found for it, [import_data] raises [SchemaMismatch] if and
    only if the column names of the upload differ from those of the schema,
    as sequences; and when it does, the instance and its stored row are
    unlocked. *)
Theorem import_data_schema_mismatch
    (get_import_task_type_for_upload : DataUpload → option TaskType)
    (user : Z) (upload : DataUpload) (external_id_field_index : option Z)
    (s : State) (c : ColumnDescriptor) (cs : list ColumnDescriptor)
    (task_type : TaskType) :
  let method :=
    import_data get_import_task_type_for_upload user upload external_id_field_index in
  fst (lock s) = Return () →
  u_imported upload = false →
  get_import_task_type_for_upload upload = Some task_type →
  column_schema (self s) = Some (c :: cs) →
  (fst (method s) = Raise SchemaMismatch ↔ u_columns upload ≠ c_name <$> c :: cs) ∧
  (fst (method s) = Raise SchemaMismatch →
   locked (self (snd (method s))) = false ∧
   ∃ row, stored (snd (method s)) = Some row ∧ locked row = false).
Proof.
  intros method Hl Hi Ht Hs. subst method. unfold import_data.
  destruct (lock_frame s) as (_ & _ & Hschema & _). rewrite Hs in Hschema.
  set (body := import_data_body get_import_task_type_for_upload user upload
                 external_id_field_index).
  assert (Hbody : ∀ s1, column_schema (self s1) = Some (c :: cs) →
            body s1 =
              (check_or_create_schema upload ;;
               start_import user upload task_type external_id_field_index) s1).
  { intros s1 _. unfold body, import_data_body. by rewrite Hi, Ht. }
  assert (Hraise : u_columns upload ≠ c_name <$> c :: cs →
            fst (body (snd (lock s))) = Raise SchemaMismatch).
  { intros Hne. rewrite (Hbody _ Hschema). cbv [mbind M_bind].
    rewrite (check_or_create_schema_run upload _ c cs Hschema).
    by rewrite decide_True. }
  assert (Hiff : fst (guarded body s) = Raise SchemaMismatch ↔
                 u_columns upload ≠ c_name <$> c :: cs).
  { split.
    - intros Hr Heq. 
      destruct (lock s) as [r s1] eqn:Hlock. simpl in Hl, Hschema. subst r.
      rewrite (guarded_run body s s1 Hlock) in Hr.
      apply try_except_reraise_unlock in Hr.
      rewrite (Hbody _ Hschema) in Hr. cbv [mbind M_bind] in Hr.
      rewrite (check_or_create_schema_run upload _ c cs Hschema) in Hr.
      rewrite decide_False in Hr by (by intros ?).
      apply task_errors_only_start_import in Hr as [msg Hmsg]. discriminate Hmsg.
    - intros Hne. by apply releases_on_error_guarded; [| apply Hraise]. }
  split; [exact Hiff |].
  intros Hr. apply Hiff in Hr.
  destruct (releases_on_error_guarded body s SchemaMismatch Hl (Hraise Hr))
    as (_ & Hm & Hrow & _). by split.
Qed.

(** An upload with columns [a] and [c] against the schema [a], [b]. *)
Lemma import_data_schema_mismatch_witness :
  fst (import_data csv_import 1 (upload_a_c false) None sample_state)
    = Raise SchemaMismatch ∧
  locked (self (snd (import_data csv_import 1 (upload_a_c false) None sample_state)))
    = false.
Proof.
  destruct (import_data_schema_mismatch csv_import 1 (upload_a_c false) None
              sample_state (mkColumn "a" false "unicode" None None None)
              [mkColumn "b" false "unicode" None None None]
              (mkTaskType "panda.tasks.import.csv"))
    as [Hiff Hunlocked]; [vm_compute; reflexivity | reflexivity | reflexivity | reflexivity |].
  assert (Hr : fst (import_data csv_import 1 (upload_a_c false) None sample_state)
               = Raise SchemaMismatch).
  { apply Hiff. vm_compute. discriminate. }
  split; [exact Hr | apply (Hunlocked Hr)].
Defined.

(** C5 as stated fails: the columns of the upload differ from the schema,
    but the upload was imported before, and [import_data] raises
    [AlreadyImported], not [SchemaMismatch]. *)
Lemma import_data_schema_mismatch_counterexample :
  column_schema (self sample_state) = Some schema_a_b ∧
  ¬ (fst (import_data csv_import 1 (upload_a_c true) None sample_state)
       = Raise SchemaMismatch
     ↔ u_columns (upload_a_c true) ≠ c_name <$> schema_a_b).
Proof.
  split; [reflexivity |]. intros [_ H].
  assert (Hne : u_columns (upload_a_c true) ≠ c_name <$> schema_a_b)
    by (vm_compute; discriminate).
  apply H in Hne. vm_compute in Hne. discriminate Hne.
Qed.

(** * Rows *)

Lemma rows_of_upsert (d : gmap string (gmap string SolrRow)) (r : SolrRow) :
  rows_of (r_dataset_slug r) (upsert d r) =
  <[r_external_id r := r]> (rows_of (r_dataset_slug r) d).
Proof. unfold rows_of at 1, upsert. by rewrite lookup_insert_eq. Qed.

Lemma numFound_upsert_old (d : gmap string (gmap string SolrRow)) (r : SolrRow) :
  is_Some (rows_of (r_dataset_slug r) d !! r_external_id r) →
  numFound (r_dataset_slug r) (upsert d r) = numFound (r_dataset_slug r) d.
Proof.
  intros Hold. unfold numFound. rewrite rows_of_upsert.
  by rewrite map_size_insert_Some.
Qed.

Lemma numFound_upsert_new (d : gmap string (gmap string SolrRow)) (r : SolrRow) :
  rows_of (r_dataset_slug r) d !! r_external_id r = None →
  numFound (r_dataset_slug r) (upsert d r) = numFound (r_dataset_slug r) d + 1.
Proof.
  intros Hnew. unfold numFound. rewrite rows_of_upsert.
  rewrite map_size_insert_None by done. lia.
Qed.

(** What [add_row] leaves, whatever the row count was. *)
Lemma add_row_run (user : Z) (data : list string) (external_id : option string)
    (s : State) :
  let row := mkSolrRow (slug (self s)) (row_key s external_id) data in
  let count := numFound (slug (self s)) (upsert (data_core s) row) in
  let s' := snd (add_row user data external_id s) in
  fst (add_row user data external_id s) = Return row ∧
  row_count (self s') = Some count ∧
  last_modification (self s') =
    Some ("1 row " +:+
          (if decide (count - default 0 (row_count (self s)) ≠ 0)
           then "added" else "updated")) ∧
  stored s' = Some (fields (self s')).
Proof.
  open_state s. unfold add_row, stored, row_key. 
  destruct external_id as [e |]; run;
    destruct sample as [[| x sample] |]; cbn;
    try case_decide; cbn; destruct created; cbn;
    (split_and!; [done | done | done | apply lookup_insert_eq]).
Qed.

(** C6, as amended.  When the row count of the instance agrees with the
    data core before the call (an unknown count standing for no row):
    [add_row] under a key that has a row leaves [row_count] as it was and
    sets [last_modification] to "1 row updated"; under a new key it raises
    [row_count] by one and sets "1 row added".  In both cases the instance
    is saved as it then is. *)
Theorem add_row_added_or_updated (user : Z) (data : list string)
    (external_id : option string) (s : State) :
  row_count_in_sync s →
  (is_Some (own_rows s !! row_key s external_id) →
   row_count (self (snd (add_row user data external_id s))) = row_count (self s) ∧
   last_modification (self (snd (add_row user data external_id s)))
     = Some "1 row updated") ∧
  (own_rows s !! row_key s external_id = None →
   row_count (self (snd (add_row user data external_id s)))
     = Some (default 0 (row_count (self s)) + 1) ∧
   last_modification (self (snd (add_row user data external_id s)))
     = Some "1 row added") ∧
  stored (snd (add_row user data external_id s))
    = Some (fields (self (snd (add_row user data external_id s)))).
Proof.
  intros Hsync. unfold row_count_in_sync in Hsync.
  destruct (add_row_run user data external_id s) as (_ & Hcount & Hsummary & Hstored).
  rewrite Hcount, Hsummary. split_and!; [| | exact Hstored].
  - intros Hold.
    pose proof (numFound_upsert_old (data_core s)
                  (mkSolrRow (slug (self s)) (row_key s external_id) data) Hold) as Hn.
    cbn [r_dataset_slug r_external_id] in Hn. rewrite Hn, <- Hsync, Z.sub_diag.
    clear Hn. split; [| done].
    destruct (row_count (self s)) as [n |] eqn:Hn; [done |].
    exfalso. simpl in Hsync. unfold numFound, own_rows in *.
    destruct Hold as [r Hr].
    assert (size (rows_of (slug (self s)) (data_core s)) ≠ 0%nat)
      by (apply map_size_ne_0_lookup; eauto).
    lia.
  - intros Hnew.
    pose proof (numFound_upsert_new (data_core s)
                  (mkSolrRow (slug (self s)) (row_key s external_id) data) Hnew) as Hn.
    cbn [r_dataset_slug r_external_id] in Hn. rewrite Hn, <- Hsync. split; [done |].
    rewrite decide_True by lia. done.
Qed.

(** A second [add_row] under the key of the first: the first leaves the
    count in step with the data core, the second updates. *)
Lemma add_row_added_or_updated_witness :
  row_count_in_sync added_state ∧
  is_Some (own_rows added_state !! row_key added_state (Some "e1")) ∧
  row_count (self (snd (add_row 1 ["y"] (Some "e1") added_state)))
    = row_count (self added_state) ∧
  last_modification (self (snd (add_row 1 ["y"] (Some "e1") added_state)))
    = Some "1 row updated".
Proof.
  assert (Hsync : row_count_in_sync added_state) by (vm_compute; reflexivity).
  assert (Hold : is_Some (own_rows added_state !! row_key added_state (Some "e1")))
    by (vm_compute; eexists; reflexivity).
  split; [exact Hsync |]. split; [exact Hold |].
  exact (proj1 (add_row_added_or_updated 1 ["y"] (Some "e1") added_state Hsync) Hold).
Defined.

(** C6 as stated fails.  The instance was loaded before another one added
    the row [e1]: its [row_count] is unknown while the data core holds the
    row.  [add_row] under [e1] overwrites that row, but [row_count] changes
    (to 1) and the summary reads "1 row added". *)
Lemma add_row_added_or_updated_counterexample :
  is_Some (own_rows stale_state !! row_key stale_state (Some "e1")) ∧
  ¬ (row_count (self (snd (add_row 1 ["y"] (Some "e1") stale_state)))
       = row_count (self stale_state) ∧
     last_modification (self (snd (add_row 1 ["y"] (Some "e1") stale_state)))
       = Some "1 row updated").
Proof.
  split; [vm_compute; eauto |]. intros [H _]. vm_compute in H. discriminate H.
Qed.

(** The rows [add_many_rows] builds, and the state it builds them in. *)
Lemma make_data_rows_run (data : list (list string * option string)) :
  ∀ s : State, ∃ rows n,
    make_data_rows data s =
      (Return rows, snd (put_solr (data_core s) (datasets_core s) n s)) ∧
    length rows = length data.
Proof.
  induction data as [| [d e] data IH]; intros s.
  - exists [], (uuid_count s). split; [| done]. by destruct s.
  - simpl. destruct e as [e |].
    + destruct (IH s) as (rows & n & Hrun & Hlen).
      exists (mkSolrRow (slug (self s)) e d :: rows), n.
      cbv [mbind M_bind make_data_row get_fields mret M_ret]. rewrite Hrun.
      split; [done | simpl; by rewrite Hlen].
    + destruct (IH (snd (put_solr (data_core s) (datasets_core s) (S (uuid_count s)) s)))
        as (rows & n & Hrun & Hlen).
      exists (mkSolrRow (slug (self s)) (uuids s (uuid_count s)) d :: rows), n.
      cbv [mbind M_bind make_data_row get_fields get_state mret M_ret].
      destruct (put_solr (data_core s) (datasets_core s) (S (uuid_count s)) s)
        as [r s1] eqn:Hput.
      unfold put_solr in Hput. injection Hput as <- <-. simpl in Hrun |- *.
      rewrite Hrun. split; [done | simpl; by rewrite Hlen].
Qed.

(** C7.  For every batch, [add_many_rows] returns and saves the instance
    with: [row_count] the count the data core then gives; "added" that
    count less the count before, an unknown count before standing for 0;
    "updated" the size of the batch less "added"; and [last_modification]
    "<a> rows added and <u> updated" when both are not zero, "<a> rows
    added" when only "added" is not zero, "<u> rows updated" otherwise. *)
Theorem add_many_rows_summary (user : Z) (data : list (list string * option string))
    (s : State) :
  ∃ rows count added updated,
    fst (add_many_rows user data s) = Return rows ∧
    count = numFound (slug (self s)) (data_core (snd (add_many_rows user data s))) ∧
    row_count (self (snd (add_many_rows user data s))) = Some count ∧
    added = count - default 0 (row_count (self s)) ∧
    updated = Z.of_nat (length data) - added ∧
    (added ≠ 0 → updated ≠ 0 →
     last_modification (self (snd (add_many_rows user data s)))
       = Some (fmt_i added +:+ " rows added and " +:+ fmt_i updated +:+ " updated")) ∧
    (added ≠ 0 → updated = 0 →
     last_modification (self (snd (add_many_rows user data s)))
       = Some (fmt_i added +:+ " rows added")) ∧
    (added = 0 →
     last_modification (self (snd (add_many_rows user data s)))
       = Some (fmt_i updated +:+ " rows updated")) ∧
    stored (snd (add_many_rows user data s))
      = Some (fields (self (snd (add_many_rows user data s)))).
Proof.
  destruct (make_data_rows_run data s) as (solr_rows & n & Hrun & Hlen).
  exists solr_rows. unfold add_many_rows, stored. cbv [mbind M_bind]. rewrite Hrun. clear Hrun.
  open_state s. run.
  destruct sample as [[| x sample] |]; cbn; try case_decide; cbn;
    destruct created; cbn;
    (do 3 eexists; split_and!; [reflexivity | reflexivity | reflexivity | reflexivity
       | reflexivity | | | | apply lookup_insert_eq]);
    unfold many_rows_summary; intros; repeat case_decide; done.
Qed.

(** The batch of the specification: three new keys, two repeated. *)
Example add_many_rows_3_new_2_repeated :
  row_count (self (snd (add_many_rows 1 batch_3_new_2_repeated sample_state))) = Some 3 ∧
  last_modification (self (snd (add_many_rows 1 batch_3_new_2_repeated sample_state)))
    = Some "3 rows added and 2 updated".
Proof. vm_compute. done. Qed.

(** C8.  With a known row count [n], [delete_all_rows] returns after: one
    delete on the data core for the whole dataset, which leaves it no row;
    no query of the index engine; [row_count] set to 0; [last_modification]
    set to "All <n> rows deleted"; and the instance saved so. *)
Theorem delete_all_rows_known_count (user : Z) (s : State) (n : Z) :
  row_count (self s) = Some n →
  fst (delete_all_rows user s) = Return () ∧
  row_count (self (snd (delete_all_rows user s))) = Some 0 ∧
  last_modification (self (snd (delete_all_rows user s)))
    = Some ("All " +:+ fmt_i n +:+ " rows deleted") ∧
  log (snd (delete_all_rows user s))
    = log s ++ [SolrDelete SOLR_DATA_CORE ("dataset_slug:" +:+ slug (self s));
                RecordSaved (fields (self (snd (delete_all_rows user s))))] ∧
  own_rows (snd (delete_all_rows user s)) = ∅ ∧
  stored (snd (delete_all_rows user s))
    = Some (fields (self (snd (delete_all_rows user s)))).
Proof.
  intros Hn. open_state s. cbn in Hn. subst rows.
  unfold delete_all_rows, stored, own_rows, rows_of. run.
  destruct created; cbn;
    (split_and!; [done | done | done | by rewrite <- app_assoc
                 | by rewrite lookup_delete_eq | apply lookup_insert_eq]).
Qed.

(** A dataset of 42 rows. *)
Lemma delete_all_rows_known_count_witness :
  row_count (self counted_state) = Some 42 ∧
  row_count (self (snd (delete_all_rows 1 counted_state))) = Some 0 ∧
  last_modification (self (snd (delete_all_rows 1 counted_state)))
    = Some ("All " +:+ fmt_i 42 +:+ " rows deleted").
Proof.
  assert (H : row_count (self counted_state) = Some 42) by reflexivity.
  split; [exact H |].
  destruct (delete_all_rows_known_count 1 counted_state 42 H) as (_ & H0 & Hm & _).
  split; [exact H0 | exact Hm].
Defined.

Example delete_all_rows_42 :
  last_modification (self (snd (delete_all_rows 1 counted_state)))
    = Some "All 42 rows deleted".
Proof. vm_compute. reflexivity. Qed.

(** C10.  With an unknown row count, [delete_all_rows] raises a
    [TypeError] where it formats the summary: by then the rows are deleted
    from the data core and the instance has [row_count] 0, but nothing was
    saved. *)
Theorem delete_all_rows_unknown_count (user : Z) (s : State) :
  row_count (self s) = None →
  fst (delete_all_rows user s)
    = Raise (TypeError "%d format: a number is required, not NoneType") ∧
  log (snd (delete_all_rows user s))
    = log s ++ [SolrDelete SOLR_DATA_CORE ("dataset_slug:" +:+ slug (self s))] ∧
  own_rows (snd (delete_all_rows user s)) = ∅ ∧
  row_count (self (snd (delete_all_rows user s))) = Some 0 ∧
  last_modification (self (snd (delete_all_rows user s))) = last_modification (self s) ∧
  db (snd (delete_all_rows user s)) = db s.
Proof.
  intros Hn. open_state s. cbn in Hn. subst rows.
  unfold delete_all_rows, own_rows, rows_of. run.
  split_and!; try done. by rewrite lookup_delete_eq.
Qed.

(** A dataset into which nothing was imported. *)
Lemma delete_all_rows_unknown_count_witness :
  row_count (self sample_state) = None ∧
  fst (delete_all_rows 1 sample_state)
    = Raise (TypeError "%d format: a number is required, not NoneType").
Proof.
  assert (H : row_count (self sample_state) = None) by reflexivity.
  split; [exact H |]. exact (proj1 (delete_all_rows_unknown_count 1 sample_state H)).
Defined.

(** * Deletion *)

(** C9.  When the task subsystem takes the dispatch, [Dataset.delete]
    returns after, in this order: the abort request to the current task, if
    there is one; the deletion of the record; the dispatch of the purge task
    for the slug; the delete of the catalog document of the slug.  Then the
    record and the catalog document are gone, the purge task is the last of
    the queue, and its run leaves the data core no row of the dataset.  The
    dispatch and the catalog delete are done by [Model_delete] through the
    receiver of [post_delete], whoever deletes the record. *)
Theorem delete_dataset_purges (s : State) :
  next_call_succeeds s →
  fst (delete_dataset s) = Return () ∧
  log (snd (delete_dataset s))
    = log s
      ++ (if current_task (self s) is Some task then [AbortRequested task] else [])
      ++ [RecordDeleted (pk (self s));
          Dispatched (PurgeDataTask (slug (self s)));
          SolrDelete SOLR_DATASETS_CORE ("slug:" +:+ slug (self s))] ∧
  stored (snd (delete_dataset s)) = None ∧
  datasets_core (snd (delete_dataset s)) !! slug (self s) = None ∧
  queue (snd (delete_dataset s)) = queue s ++ [PurgeDataTask (slug (self s))] ∧
  own_rows (snd (run_task (PurgeDataTask (slug (self s))) (snd (delete_dataset s)))) = ∅ ∧
  log (snd (Model_delete s))
    = log s ++ [RecordDeleted (pk (self s));
                Dispatched (PurgeDataTask (slug (self s)));
                SolrDelete SOLR_DATASETS_CORE ("slug:" +:+ slug (self s))].
Proof.
  intros Hnext. open_state s. unfold next_call_succeeds in Hnext. cbn in Hnext.
  unfold delete_dataset, stored, own_rows, rows_of.
  destruct task as [task |]; run; destruct fs as [| [msg |] fs]; try done; cbn;
    rewrite <- ?app_assoc; cbn;
    (split_and!; [done | done | apply lookup_delete_eq | apply lookup_delete_eq
                 | done | by rewrite lookup_delete_eq | done]).
Qed.

(** A dataset with a current task and one row: after the deletion and one
    step of a worker no row of it is left. *)
Lemma delete_dataset_purges_witness :
  next_call_succeeds busy_state ∧
  fst (delete_dataset busy_state) = Return () ∧
  log (snd (delete_dataset busy_state))
    = [AbortRequested 3; RecordDeleted 7; Dispatched (PurgeDataTask "d");
       SolrDelete SOLR_DATASETS_CORE "slug:d"] ∧
  own_rows (snd (run_task (PurgeDataTask "d") (snd (delete_dataset busy_state)))) = ∅.
Proof.
  assert (H : next_call_succeeds busy_state) by exact I.
  split; [exact H |].
  destruct (delete_dataset_purges busy_state H) as (Hr & Hlog & _ & _ & _ & Hrows & _).
  split; [exact Hr |]. split; [exact Hlog | exact Hrows].
Defined.

Example delete_dataset_then_worker :
  own_rows busy_state ≠ ∅ ∧
  own_rows (snd ((delete_dataset ;; worker_step) busy_state)) = ∅ ∧
  datasets_core (snd ((delete_dataset ;; worker_step) busy_state)) !! "d" = None.
Proof. vm_compute. split; [discriminate | done]. Qed.

(** * Further properties of the code *)

(** * More on the column names *)

Lemma all_chars_impl (p q : ascii → bool) (s : string) :
  (∀ c, p c = true → q c = true) → all_chars p s = true → all_chars q s = true.
Proof.
  intros Hpq. induction s as [| c r IH]; simpl; [done |].
  intros [Hc Hr]%andb_prop. rewrite (Hpq c Hc). by apply IH.
Qed.

Lemma sub_non_word_kept (s : string) : all_chars kept_char (sub_non_word s) = true.
Proof.
  induction s as [| c r IH]; simpl; [done |].
  destruct (is_word c || is_space c || is_hyphen c) eqn:Hc; [| done].
  simpl. unfold kept_char at 1. by rewrite Hc.
Qed.

Lemma lstrip_all_chars (p : ascii → bool) (s : string) :
  all_chars p s = true → all_chars p (lstrip s) = true.
Proof.
  induction s as [| c r IH]; simpl; [done |].
  intros [Hc Hr]%andb_prop. destruct (is_space c); [by apply IH |].
  simpl. by rewrite Hc, Hr.
Qed.

Lemma rstrip_all_chars (p : ascii → bool) (s : string) :
  all_chars p s = true → all_chars p (rstrip s) = true.
Proof.
  induction s as [| c r IH]; simpl; [done |].
  intros [Hc Hr]%andb_prop. specialize (IH Hr).
  destruct (rstrip r) as [| c' r'].
  - destruct (is_space c); simpl; [done | by rewrite Hc].
  - simpl in *. by rewrite Hc, IH.
Qed.

Lemma lower_char_lowered (c : ascii) : kept_char c = true → lowered_char (lower_char c) = true.
Proof. destruct c as [[] [] [] [] [] [] [] []]; vm_compute; done. Qed.

Lemma lower_lowered (s : string) :
  all_chars kept_char s = true → all_chars lowered_char (lower s) = true.
Proof.
  induction s as [| c r IH]; simpl; [done |].
  intros [Hc Hr]%andb_prop. by rewrite (lower_char_lowered c Hc), IH.
Qed.

Lemma sub_runs_slug_chars (s : string) :
  ∀ in_run, all_chars lowered_char s = true →
    all_chars slug_char (sub_runs in_run s) = true.
Proof.
  induction s as [| c r IH]; intros in_run; simpl; [done |].
  intros [Hc Hr]%andb_prop.
  destruct (is_hyphen c || is_space c) eqn:Hsep.
  - destruct in_run; simpl; by apply IH.
  - simpl. rewrite (IH false Hr), andb_true_r.
    unfold lowered_char in Hc. apply orb_false_elim in Hsep as [Hh Hs].
    rewrite Hh, Hs, !orb_false_r in Hc. exact Hc.
Qed.

(** X1.  The slug of a column name holds lower-case letters, digits and
    underscores only, whatever the name and whatever the decomposition
    step gives. *)
Theorem slugify_slug_chars (nfkd_ascii : string → string) (name : string) :
  all_chars slug_char (slugify nfkd_ascii name) = true.
Proof.
  unfold slugify, strip. apply sub_runs_slug_chars, lower_lowered.
  apply rstrip_all_chars, lstrip_all_chars, sub_non_word_kept.
Qed.

Lemma sub_non_word_spaces (s : string) :
  all_chars no_slug_source s = true → all_chars is_space (sub_non_word s) = true.
Proof.
  induction s as [| c r IH]; simpl; [done |].
  intros [Hc Hr]%andb_prop. unfold no_slug_source in Hc.
  apply andb_prop in Hc as [Hw Hh]. apply negb_true_iff in Hw, Hh.
  rewrite Hw, Hh, orb_false_r. simpl.
  destruct (is_space c) eqn:Hs; simpl; [rewrite Hs |]; by apply IH.
Qed.

Lemma lstrip_spaces (s : string) : all_chars is_space s = true → lstrip s = "".
Proof.
  induction s as [| c r IH]; simpl; [done |].
  intros [Hc Hr]%andb_prop. rewrite Hc. by apply IH.
Qed.

(** X2.  A name without a letter, a digit, an underscore or a hyphen (after the
    decomposition step) has the empty slug: its column is named
    [column_<type>_]. *)
Theorem slugify_degenerate (nfkd_ascii : string → string) (c : ColumnDescriptor) :
  all_chars no_slug_source (nfkd_ascii (c_name c)) = true →
  slugify nfkd_ascii (c_name c) = "" ∧
  typed_name nfkd_ascii c = "column_" +:+ c_type c +:+ "_".
Proof.
  intros H. assert (Hs : slugify nfkd_ascii (c_name c) = "").
  { unfold slugify, strip. by rewrite (lstrip_spaces _ (sub_non_word_spaces _ H)). }
  split; [exact Hs |]. unfold typed_name. by rewrite Hs.
Qed.

Lemma slugify_degenerate_witness :
  all_chars no_slug_source (ascii_names "?! (%)") = true ∧
  typed_name ascii_names (mkColumn "?! (%)" true "int" None None None) = "column_int_".
Proof.
  assert (H : all_chars no_slug_source (ascii_names "?! (%)") = true) by reflexivity.
  split; [exact H |].
  exact (proj2 (slugify_degenerate ascii_names
                  (mkColumn "?! (%)" true "int" None None None) H)).
Defined.

Lemma set_indexed_name_same (c : ColumnDescriptor) :
  set_indexed_name (c_indexed_name c) c = c.
Proof. by destruct c. Qed.

(** X3.  Naming again a schema that was named changes nothing: the names of a
    reindex are those of the reindex before, as long as names, types and
    flags stay. *)
Theorem generate_typed_column_names_idempotent (nfkd_ascii : string → string)
    (fuel : nat) (schema : list ColumnDescriptor) :
  (length schema < fuel)%nat →
  ∃ out, _generate_typed_column_names nfkd_ascii fuel schema = Some out ∧
         _generate_typed_column_names nfkd_ascii fuel out = Some out.
Proof.
  intros Hlen. unfold _generate_typed_column_names.
  destruct (generate_from_spec nfkd_ascii fuel schema []) as (out & Hout & Hl & Hcols);
    [simpl; lia |].
  exists out. split; [exact Hout |].
  destruct (generate_from_spec nfkd_ascii fuel out []) as (out2 & Hout2 & Hl2 & Hcols2);
    [simpl; lia |].
  rewrite Hout2. f_equal.
  assert (Hin : naming_input <$> out = naming_input <$> schema).
  { apply list_eq. intros i. rewrite !list_lookup_fmap.
    destruct (schema !! i) as [c |] eqn:Hc.
    - destruct (Hcols i c Hc) as (c' & -> & -> & _). by destruct c.
    - apply lookup_ge_None in Hc. rewrite (proj2 (lookup_ge_None out i)); [done | lia]. }
  pose proof (generate_from_input nfkd_ascii fuel schema out [] Hin) as Hnames.
  rewrite Hout, Hout2 in Hnames.
  assert (Hnames' : c_indexed_name <$> out2 = c_indexed_name <$> out)
    by (by apply (inj Some)).
  apply list_eq. intros i.
  destruct (out !! i) as [c |] eqn:Hc.
  - destruct (Hcols2 i c Hc) as (c2 & Hc2 & Heq & _). rewrite Hc2. f_equal.
    assert (Hn : c_indexed_name c2 = c_indexed_name c).
    { assert (H2 : (c_indexed_name <$> out2) !! i = Some (c_indexed_name c2))
        by (by rewrite list_lookup_fmap, Hc2).
      rewrite Hnames', list_lookup_fmap, Hc in H2. by injection H2. }
    rewrite Heq, Hn. apply set_indexed_name_same.
  - apply lookup_ge_None in Hc. apply lookup_ge_None. lia.
Qed.

Lemma generate_typed_column_names_idempotent_witness :
  (length sample_schema < 5)%nat ∧
  ∃ out, _generate_typed_column_names ascii_names 5 sample_schema = Some out ∧
         _generate_typed_column_names ascii_names 5 out = Some out.
Proof.
  assert (H : (length sample_schema < 5)%nat) by (simpl; lia).
  split; [exact H |].
  exact (generate_typed_column_names_idempotent ascii_names 5 sample_schema H).
Defined.

(** With the typed names [bases] of the indexed columns all different from
    each other and from what was assigned before, every indexed column gets
    its typed name as it is. *)
Lemma generate_from_plain (nfkd_ascii : string → string) (fuel : nat)
    (cs : list ColumnDescriptor) :
  ∀ (typed : list (option string)) out,
    generate_from nfkd_ascii fuel typed cs = Some out →
    NoDup (typed_name nfkd_ascii <$> filter (λ c, c_indexed c = true) cs) →
    (∀ c, c ∈ cs → c_indexed c = true → Some (typed_name nfkd_ascii c) ∉ typed) →
    ∀ i c, cs !! i = Some c → c_indexed c = true →
      c_indexed_name <$> out !! i = Some (Some (typed_name nfkd_ascii c)).
Proof.
  induction cs as [| c cs IH]; intros typed out Hout Hnd Hfree i c0 Hi Hidx; [done |].
  simpl in Hout. destruct (c_indexed c) eqn:Hc; simpl in Hout.
  - rewrite filter_cons_True in Hnd by done. rewrite fmap_cons in Hnd.
    apply NoDup_cons in Hnd as [Hhead Hnd].
    unfold deduplicate in Hout.
    rewrite decide_False in Hout by (apply Hfree; [left | done]).
    simpl in Hout.
    destruct (generate_from nfkd_ascii fuel (typed ++ [Some (typed_name nfkd_ascii c)]) cs)
      as [rest |] eqn:Hrest; [| done].
    injection Hout as <-.
    destruct i as [| i]; simpl in *; [by injection Hi as -> |].
    apply (IH _ _ Hrest Hnd); [| done | done].
    intros c1 Hc1 Hidx1 Hin. apply elem_of_app in Hin as [Hin | Hin].
    + by apply (Hfree c1); [right | |].
    + apply list_elem_of_singleton in Hin. apply (inj Some) in Hin.
      apply Hhead. rewrite <- Hin. apply list_elem_of_fmap. exists c1.
      split; [done |]. by apply list_elem_of_filter.
  - rewrite filter_cons_False in Hnd by (by rewrite Hc).
    destruct (generate_from nfkd_ascii fuel (typed ++ [None]) cs) as [rest |] eqn:Hrest;
      [| done].
    injection Hout as <-.
    destruct i as [| i]; simpl in *; [injection Hi as ->; congruence |].
    apply (IH _ _ Hrest Hnd); [| done | done].
    intros c1 Hc1 Hidx1 Hin. apply elem_of_app in Hin as [Hin | Hin].
    + by apply (Hfree c1); [right | |].
    + by apply list_elem_of_singleton in Hin.
Qed.

(** X4.  A number is appended only where it is needed: with enough fuel
    (more than the number of columns) the naming returns a schema, and when
    the names [column_<type>_<slug>] of the indexed columns are all
    different, each indexed column is named by exactly that name. *)
Theorem generate_typed_column_names_plain (nfkd_ascii : string → string)
    (fuel : nat) (schema : list ColumnDescriptor) :
  (length schema < fuel)%nat →
  NoDup ((λ c, "column_" +:+ c_type c +:+ "_" +:+ slugify nfkd_ascii (c_name c))
           <$> filter (λ c, c_indexed c = true) schema) →
  ∃ out, _generate_typed_column_names nfkd_ascii fuel schema = Some out ∧
    ∀ i c, schema !! i = Some c → c_indexed c = true →
      c_indexed_name <$> out !! i
        = Some (Some ("column_" +:+ c_type c +:+ "_" +:+ slugify nfkd_ascii (c_name c))).
Proof.
  intros Hlen Hnd.
  destruct (generate_from_spec nfkd_ascii fuel schema []) as (out & Hout & _);
    [simpl; lia |].
  exists out. split; [exact Hout |].
  apply (generate_from_plain nfkd_ascii fuel schema [] out Hout Hnd).
  intros c _ _ Hin. by apply elem_of_nil in Hin.
Qed.

Lemma generate_typed_column_names_plain_witness :
  (length distinct_schema < 3)%nat ∧
  NoDup ((λ c, "column_" +:+ c_type c +:+ "_" +:+ slugify ascii_names (c_name c))
           <$> filter (λ c, c_indexed c = true) distinct_schema) ∧
  ∃ out, _generate_typed_column_names ascii_names 3 distinct_schema = Some out ∧
    c_indexed_name <$> out !! 1%nat = Some (Some "column_int_age").
Proof.
  assert (Hlen : (length distinct_schema < 3)%nat) by (simpl; lia).
  assert (Hnd : NoDup ((λ c, "column_" +:+ c_type c +:+ "_"
                               +:+ slugify ascii_names (c_name c))
                         <$> filter (λ c, c_indexed c = true) distinct_schema)).
  { vm_compute. apply NoDup_cons_2; [| apply NoDup_singleton].
    intros H%list_elem_of_singleton. discriminate H. }
  split; [exact Hlen |]. split; [exact Hnd |].
  destruct (generate_typed_column_names_plain ascii_names 3 distinct_schema Hlen Hnd)
    as (out & Hout & Hnames).
  exists out. split; [exact Hout |].
  exact (Hnames 1%nat (mkColumn "Age" true "int" None None None) eq_refl eq_refl).
Defined.

(** * More on saving and locking *)

(** X5.  [save] stamps the creation date on the first save only: a date that is
    set is kept, nothing else of the instance changes, the instance is
    stored as it then is, and a second save changes neither the instance
    nor the stored row. *)
Theorem save_creation_date (s : State) :
  fst (save s) = Return () ∧
  creation_date (self (snd (save s)))
    = Some (default (clock s (ticks s)) (creation_date (self s))) ∧
  fields (self (snd (save s)))
    = set_creation_date (creation_date (self (snd (save s)))) (fields (self s)) ∧
  stored (snd (save s)) = Some (fields (self (snd (save s)))) ∧
  self (snd (save (snd (save s)))) = self (snd (save s)) ∧
  db (snd (save (snd (save s)))) = db (snd (save s)).
Proof.
  open_state s. unfold stored. run.
  destruct created; cbn; (split_and!; try done; try apply lookup_insert_eq);
    by rewrite insert_insert_eq.
Qed.

(** X6.  Without a stored row [lock] raises [DoesNotExist]: it writes nothing
    (the store holds what the other processes left) and the instance is as
    it was. *)
Theorem lock_missing_row (s : State) :
  visible s !! pk (self s) = None →
  fst (lock s) = Raise DoesNotExist ∧
  db (snd (lock s)) = visible s ∧
  log (snd (lock s)) = log s ∧
  self (snd (lock s)) = self s.
Proof.
  intros Hb. open_state s. unfold visible in *. cbn in Hb |- *.
  unfold lock. run. rewrite Hb. done.
Qed.

Lemma lock_missing_row_witness :
  visible (snd (delete_dataset sample_state)) !! pk (self (snd (delete_dataset sample_state)))
    = None ∧
  fst (lock (snd (delete_dataset sample_state))) = Raise DoesNotExist.
Proof.
  assert (H : visible (snd (delete_dataset sample_state))
                !! pk (self (snd (delete_dataset sample_state))) = None)
    by (vm_compute; reflexivity).
  split; [exact H |]. exact (proj1 (lock_missing_row _ H)).
Defined.

(** [lock] alone on a free dataset: it returns, the instance is locked with
    the clock reading as token and stored as it is; of the instance only
    [locked], [locked_at] and a missing creation date change, and the
    collaborators are not touched. *)
Lemma lock_alone (s : State) :
  undisturbed s → free_in_store s →
  ∃ s1, lock s = (Return (), s1) ∧
    undisturbed s1 ∧
    stored s1 = Some (fields (self s1)) ∧
    fields (self s1)
      = set_creation_date (creation_date (self s1))
          (set_locked_at (Some (clock s (ticks s))) (set_locked true (fields (self s)))) ∧
    lock_id (self s1) = lock_id (self s) ∧
    faults s1 = faults s ∧ next_task_id s1 = next_task_id s ∧ queue s1 = queue s ∧
    data_core s1 = data_core s ∧ datasets_core s1 = datasets_core s.
Proof.
  intros Hu (row & Hrow & Hfree). open_state s.
  unfold undisturbed, stored in *. cbn in Hu, Hrow. subst others.
  unfold lock. run. rewrite Hrow. cbn. rewrite Hfree. cbn.
  destruct created; cbn; rewrite lookup_insert_eq; cbn;
    (rewrite decide_False by (by intros ?)); cbn;
    eexists; (split; [reflexivity |]); cbn;
    (split_and!; try done; apply lookup_insert_eq).
Qed.

(** [lock] on a dataset whose stored row is locked raises, and leaves the
    state as it was but for the lock fields of the instance. *)
Lemma lock_held (s : State) (row : Fields) :
  undisturbed s → stored s = Some row → locked row = true →
  fst (lock s) = Raise DatasetLocked ∧
  db (snd (lock s)) = db s ∧ log (snd (lock s)) = log s ∧
  queue (snd (lock s)) = queue s.
Proof.
  intros Hu Hrow Hheld. open_state s.
  unfold undisturbed, stored in *. cbn in Hu, Hrow. subst others.
  unfold lock. run. rewrite Hrow. cbn. rewrite Hheld. done.
Qed.

Lemma unlock_undisturbed (s : State) : undisturbed s → undisturbed (snd (unlock s)).
Proof.
  open_state s. unfold undisturbed, unlock. run. by destruct created.
Qed.

(** X7.  The lock excludes and is given back: on a free dataset that no other
    process touches, [lock] returns and stores the row locked; a second
    [lock] raises [DatasetLocked]; after [unlock] a [lock] returns again. *)
Theorem lock_excludes_until_unlock (s : State) :
  undisturbed s → free_in_store s →
  fst (lock s) = Return () ∧
  (locked <$> stored (snd (lock s))) = Some true ∧
  fst ((lock ;; lock) s) = Raise DatasetLocked ∧
  fst ((lock ;; unlock ;; lock) s) = Return ().
Proof.
  intros Hu Hfree.
  destruct (lock_alone s Hu Hfree) as (s1 & Hlock & Hu1 & Hst1 & Hf1 & _).
  assert (Hheld : locked (self s1) = true) by (by rewrite Hf1).
  cbv [mbind M_bind]. rewrite Hlock. simpl.
  split_and!; [done | by rewrite Hst1; simpl; rewrite Hheld | |].
  - by apply (lock_held s1 (fields (self s1))).
  - destruct (unlock_effect s1) as (Hr & Hm & _ & _ & Hpk & Hdb & _).
    destruct (unlock s1) as [r s2] eqn:Hunlock. simpl in *. subst r.
    destruct (lock_alone s2) as (s3 & Hlock3 & _).
    + replace s2 with (snd (unlock s1)) by (by rewrite Hunlock).
      by apply unlock_undisturbed.
    + exists (fields (self s2)). unfold stored. by rewrite Hpk.
    + by rewrite Hlock3.
Qed.

Lemma lock_excludes_until_unlock_witness :
  undisturbed sample_state ∧ free_in_store sample_state ∧
  fst ((lock ;; lock) sample_state) = Raise DatasetLocked ∧
  fst ((lock ;; unlock ;; lock) sample_state) = Return ().
Proof.
  assert (Hu : undisturbed sample_state) by reflexivity.
  assert (Hf : free_in_store sample_state)
    by (exists sample_fields; split; vm_compute; reflexivity).
  split; [exact Hu |]. split; [exact Hf |].
  destruct (lock_excludes_until_unlock sample_state Hu Hf) as (_ & _ & H2 & H3).
  split; [exact H2 | exact H3].
Defined.

(** X8.  When [lock] raises, the three methods raise the same and end in the
    state [lock] left: no [unlock], no task, no save. *)
Theorem guarded_methods_without_lock
    (nfkd_ascii : string → string)
    (get_import_task_type_for_upload : DataUpload → option TaskType)
    (ExportCSVTask_name : string) (user : Z) (s : State) (e : Exception) :
  fst (lock s) = Raise e →
  (∀ upload external_id_field_index,
     import_data get_import_task_type_for_upload user upload external_id_field_index s
       = (Raise e, snd (lock s))) ∧
  (∀ typed_columns column_types,
     reindex_data nfkd_ascii user typed_columns column_types s = (Raise e, snd (lock s))) ∧
  (∀ filename,
     export_data ExportCSVTask_name user filename s = (Raise e, snd (lock s))).
Proof.
  intros Hl.
  assert (H : ∀ body, guarded body s = (Raise e, snd (lock s))).
  { intros body. unfold guarded. cbv [mbind M_bind].
    destruct (lock s) as [r s1]; simpl in *. by subst r. }
  split_and!; intros; apply H.
Qed.

(** A second export while the first holds the lock: [DatasetLocked], and the
    lock of the first stays. *)
Lemma guarded_methods_without_lock_witness :
  fst (lock (snd (lock sample_state))) = Raise DatasetLocked ∧
  fst (export_data "panda.tasks.export.csv" 1 None (snd (lock sample_state)))
    = Raise DatasetLocked ∧
  (locked <$> stored (snd (export_data "panda.tasks.export.csv" 1 None
                             (snd (lock sample_state))))) = Some true.
Proof.
  assert (H : fst (lock (snd (lock sample_state))) = Raise DatasetLocked)
    by (vm_compute; reflexivity).
  split; [exact H |].
  destruct (guarded_methods_without_lock ascii_names csv_import "panda.tasks.export.csv" 1
              (snd (lock sample_state)) DatasetLocked H) as (_ & _ & Hexport).
  rewrite (Hexport None). split; [reflexivity | vm_compute; reflexivity].
Defined.

(** * More on import, reindex and export *)

(** X9.  An upload that was imported before, or for which no task type is
    found, is refused once the lock is held, whatever its columns: the
    method raises and ends in the state [unlock] makes of the locked one,
    so that no schema, sample or task was touched. *)
Theorem import_data_refusals
    (get_import_task_type_for_upload : DataUpload → option TaskType)
    (user : Z) (upload : DataUpload) (external_id_field_index : option Z) (s : State) :
  fst (lock s) = Return () →
  (u_imported upload = true →
   import_data get_import_task_type_for_upload user upload external_id_field_index s
     = (Raise AlreadyImported, snd (unlock (snd (lock s))))) ∧
  (u_imported upload = false → get_import_task_type_for_upload upload = None →
   import_data get_import_task_type_for_upload user upload external_id_field_index s
     = (Raise UnsupportedFileType, snd (unlock (snd (lock s))))).
Proof.
  intros Hl. split.
  - intros Hi.
    assert (Hb : import_data_body get_import_task_type_for_upload user upload
                   external_id_field_index (snd (lock s))
                 = (Raise AlreadyImported, snd (lock s)))
      by (unfold import_data_body; by rewrite Hi).
    unfold import_data. rewrite (guarded_releases _ s AlreadyImported Hl); by rewrite Hb.
  - intros Hi Ht.
    assert (Hb : import_data_body get_import_task_type_for_upload user upload
                   external_id_field_index (snd (lock s))
                 = (Raise UnsupportedFileType, snd (lock s)))
      by (unfold import_data_body; by rewrite Hi, Ht).
    unfold import_data. rewrite (guarded_releases _ s UnsupportedFileType Hl); by rewrite Hb.
Qed.

Lemma import_data_refusals_witness :
  fst (lock sample_state) = Return () ∧
  import_data (λ _, None) 1 (upload_a_c false) None sample_state
    = (Raise UnsupportedFileType, snd (unlock (snd (lock sample_state)))).
Proof.
  assert (H : fst (lock sample_state) = Return ()) by (vm_compute; reflexivity).
  split; [exact H |].
  exact (proj2 (import_data_refusals (λ _, None) 1 (upload_a_c false) None sample_state H)
           eq_refl eq_refl).
Defined.

Lemma with_schema_twice (v v' : option (list ColumnDescriptor)) (s : State) :
  with_schema v (with_schema v' s) = with_schema v s.
Proof. by destruct s as [[[] ?] ? ? ? ? ? ? ? ? ? ? ? ?]. Qed.

Lemma with_schema_same (s : State) : with_schema (column_schema (self s)) s = s.
Proof. by destruct s as [[[] ?] ? ? ? ? ? ? ? ? ? ? ? ?]. Qed.

Lemma with_schema_schema (v : option (list ColumnDescriptor)) (s : State) :
  column_schema (self (with_schema v s)) = v.
Proof. by destruct s as [[[] ?] ? ? ? ? ? ? ? ? ? ? ? ?]. Qed.

Lemma assign_schema_run (v : option (list ColumnDescriptor)) (s : State) :
  assign (set_column_schema v) s = (Return (), with_schema v s).
Proof. reflexivity. Qed.

(** The columns appended for an upload with a guessed type for each of its
    columns. *)
Lemma append_columns_run (columns types : list string) :
  ∀ (i : nat) (s : State) (l : list ColumnDescriptor),
    column_schema (self s) = Some l →
    (i + length columns ≤ length types)%nat →
    append_columns i columns types s
      = (Return (),
         with_schema (Some (l ++ zip_with imported_column columns (drop i types))) s).
Proof.
  induction columns as [| c columns IH]; intros i s l Hs Hlen; simpl in *.
  - rewrite app_nil_r, <- Hs. by rewrite with_schema_same.
  - destruct (types !! i) as [t |] eqn:Ht;
      [| apply lookup_ge_None in Ht; lia].
    cbv [mbind M_bind get_fields]. cbv beta iota. rewrite Hs.
    cbn [default]. rewrite assign_schema_run.
    rewrite (IH (S i) _ (l ++ [mkColumn c false t None None None]));
      [| apply with_schema_schema | lia].
    rewrite with_schema_twice, (drop_S _ _ _ Ht), <- app_assoc. done.
Qed.

(** With fewer guessed types than columns the loop raises at the first
    column without a type, the columns before it appended. *)
Lemma append_columns_short (columns types : list string) :
  ∀ (i : nat) (s : State) (l : list ColumnDescriptor),
    column_schema (self s) = Some l →
    (i ≤ length types < i + length columns)%nat →
    append_columns i columns types s
      = (Raise (IndexError "list index out of range"),
         with_schema (Some (l ++ zip_with imported_column columns (drop i types))) s).
Proof.
  induction columns as [| c columns IH]; intros i s l Hs Hlen; simpl in *; [lia |].
  destruct (types !! i) as [t |] eqn:Ht.
  - cbv [mbind M_bind get_fields]. cbv beta iota. rewrite Hs.
    cbn [default]. rewrite assign_schema_run.
    apply lookup_lt_Some in Ht as Hi.
    rewrite (IH (S i) _ (l ++ [mkColumn c false t None None None]));
      [| apply with_schema_schema | lia].
    rewrite with_schema_twice, (drop_S _ _ _ Ht), <- app_assoc. done.
  - apply lookup_ge_None in Ht. rewrite (drop_ge types i) by lia.
    simpl. rewrite app_nil_r, <- Hs. by rewrite with_schema_same.
Qed.

Lemma imported_column_names (columns types : list string) :
  (length columns ≤ length types)%nat →
  c_name <$> zip_with imported_column columns types = columns.
Proof.
  revert types. induction columns as [| c columns IH]; intros [| t types] Hlen;
    simpl in *; try done; try lia.
  f_equal. apply IH. lia.
Qed.

(** X10.  On a dataset without a schema (none, or an empty one) the columns of
    the upload make the schema, in order: each with the name of the upload,
    its guessed type, not indexed and without an indexed name.  That schema
    has the column names of the upload, and when there is a column, the
    check of a later upload passes exactly when its columns are the
    same. *)
Theorem check_or_create_schema_creates (upload later : DataUpload) (s : State) :
  column_schema (self s) = None ∨ column_schema (self s) = Some [] →
  (length (u_columns upload) ≤ length (u_guessed_types upload))%nat →
  let schema := zip_with imported_column (u_columns upload) (u_guessed_types upload) in
  check_or_create_schema upload s = (Return (), with_schema (Some schema) s) ∧
  c_name <$> schema = u_columns upload ∧
  (u_columns upload ≠ [] →
   check_or_create_schema later (with_schema (Some schema) s)
     = (if decide (u_columns later ≠ u_columns upload)
        then Raise SchemaMismatch else Return (),
        with_schema (Some schema) s)).
Proof.
  intros Hnone Hlen schema.
  assert (Hnames : c_name <$> schema = u_columns upload)
    by (by apply imported_column_names).
  split_and!; [| exact Hnames |].
  - unfold check_or_create_schema. cbv [mbind M_bind get_fields].
    assert (Hrun : append_columns 0 (u_columns upload) (u_guessed_types upload)
                     (with_schema (Some []) s)
                   = (Return (), with_schema (Some schema) s)).
    { rewrite (append_columns_run _ _ 0%nat _ []);
        [| apply with_schema_schema | simpl; lia].
      by rewrite with_schema_twice. }
    destruct Hnone as [-> | ->]; simpl; exact Hrun.
  - intros Hne.
    destruct schema as [| c cs] eqn:Hschema.
    + exfalso. apply Hne. by rewrite <- Hnames.
    + rewrite (check_or_create_schema_run later _ c cs) by apply with_schema_schema.
      rewrite Hnames. by case_decide.
Qed.

Lemma check_or_create_schema_creates_witness :
  column_schema (self (with_schema None sample_state)) = None ∧
  c_name <$> zip_with imported_column (u_columns (upload_a_c false))
               (u_guessed_types (upload_a_c false)) = ["a"; "c"] ∧
  fst (check_or_create_schema (upload_a_c false) (with_schema None sample_state))
    = Return ().
Proof.
  assert (H : column_schema (self (with_schema None sample_state)) = None) by reflexivity.
  split; [exact H |].
  destruct (check_or_create_schema_creates (upload_a_c false) (upload_a_c false)
              (with_schema None sample_state) (or_introl H)) as (Hrun & Hnames & _);
    [simpl; lia |].
  split; [exact Hnames | by rewrite Hrun].
Defined.

(** [unlock] changes [locked], and a missing creation date, and nothing else
    of the model fields. *)
Lemma unlock_fields (s : State) :
  fields (self (snd (unlock s)))
    = set_creation_date (creation_date (self (snd (unlock s))))
        (set_locked false (fields (self s))).
Proof. open_state s. unfold unlock. run. by destruct created. Qed.

Lemma stored_after_unlock (s : State) :
  stored (snd (unlock s)) = Some (fields (self (snd (unlock s)))).
Proof.
  destruct (unlock_effect s) as (_ & _ & _ & _ & Hpk & Hdb & _).
  unfold stored. by rewrite Hpk.
Qed.

(** X11.  With fewer guessed types than columns, a schema-defining import raises
    [IndexError] where the first type is missing.  The columns before it
    stay in the schema, and [unlock] stores them: the dataset is left
    unlocked with a schema of the columns that had a type. *)
Theorem import_data_short_types
    (get_import_task_type_for_upload : DataUpload → option TaskType)
    (user : Z) (upload : DataUpload) (external_id_field_index : option Z)
    (s : State) (task_type : TaskType) :
  let method :=
    import_data get_import_task_type_for_upload user upload external_id_field_index in
  fst (lock s) = Return () →
  u_imported upload = false →
  get_import_task_type_for_upload upload = Some task_type →
  column_schema (self s) = None ∨ column_schema (self s) = Some [] →
  (length (u_guessed_types upload) < length (u_columns upload))%nat →
  fst (method s) = Raise (IndexError "list index out of range") ∧
  (column_schema <$> stored (snd (method s)))
    = Some (Some (zip_with imported_column (u_columns upload) (u_guessed_types upload))) ∧
  (locked <$> stored (snd (method s))) = Some false.
Proof.
  intros method Hl Hi Ht Hnone Hlen. subst method. unfold import_data.
  destruct (lock_frame s) as (_ & _ & Hschema & _).
  set (s1 := snd (lock s)) in *.
  set (schema := zip_with imported_column (u_columns upload) (u_guessed_types upload)).
  assert (Hb : import_data_body get_import_task_type_for_upload user upload
                 external_id_field_index s1
               = (Raise (IndexError "list index out of range"),
                  with_schema (Some schema) s1)).
  { unfold import_data_body. rewrite Hi, Ht.
    unfold check_or_create_schema. cbv [mbind M_bind get_fields].
    assert (Hrun : append_columns 0 (u_columns upload) (u_guessed_types upload)
                     (with_schema (Some []) s1)
                   = (Raise (IndexError "list index out of range"),
                      with_schema (Some schema) s1)).
    { rewrite (append_columns_short _ _ 0%nat _ []);
        [| apply with_schema_schema | simpl; lia].
      by rewrite with_schema_twice. }
    rewrite Hschema.
    destruct Hnone as [-> | ->]; cbv beta iota; rewrite assign_schema_run, Hrun; done. }
  rewrite (guarded_releases _ s _ Hl) by (subst s1; by rewrite Hb).
  fold s1. rewrite Hb. cbn [fst snd].
  rewrite stored_after_unlock, unlock_fields. cbn [fmap option_fmap option_map].
  split_and!; [done | | done].
  do 2 f_equal.
Qed.

Lemma import_data_short_types_witness :
  fst (import_data csv_import 1 (mkUpload 4 false ["a"; "b"; "c"] ["int"] None) None
         (with_schema None sample_state))
    = Raise (IndexError "list index out of range") ∧
  (column_schema <$>
     stored (snd (import_data csv_import 1 (mkUpload 4 false ["a"; "b"; "c"] ["int"] None)
                    None (with_schema None sample_state))))
    = Some (Some [imported_column "a" "int"]).
Proof.
  destruct (import_data_short_types csv_import 1
              (mkUpload 4 false ["a"; "b"; "c"] ["int"] None) None
              (with_schema None sample_state) (mkTaskType "panda.tasks.import.csv"))
    as (Hr & Hs & _);
    [vm_compute; reflexivity | reflexivity | reflexivity | by left | simpl; lia |].
  split; [exact Hr | exact Hs].
Defined.

Lemma guarded_lock_raises (body : M unit) (s : State) (e : Exception) :
  fst (lock s) = Raise e → guarded body s = (Raise e, snd (lock s)).
Proof.
  intros Hl. unfold guarded. cbv [mbind M_bind].
  destruct (lock s) as [r s1]; simpl in *. by subst r.
Qed.

Lemma guarded_returns (body : M unit) (s s1 s2 : State) :
  lock s = (Return (), s1) → body s1 = (Return (), s2) →
  guarded body s = (Return (), s2).
Proof.
  intros Hl Hb. rewrite (guarded_run body s s1 Hl).
  unfold try_except_reraise. by rewrite Hb.
Qed.

(** The end of the three blocks, when the task subsystem takes both
    calls. *)
Lemma create_and_dispatch_run (task_name : string) (user : Z)
    (mk : Fields → Z → Task) (s : State) :
  faults s = [] →
  ∃ s', create_and_dispatch task_name user mk s = (Return (), s') ∧
    fields (self s')
      = set_creation_date (creation_date (self s'))
          (set_current_task (Some (next_task_id s)) (fields (self s))) ∧
    stored s' = Some (fields (self s')) ∧
    queue s' = queue s ++ [mk (fields (self s')) (next_task_id s)] ∧
    concurrent s' = concurrent s ∧
    data_core s' = data_core s.
Proof.
  intros Hf. open_state s. cbn in Hf. subst fs.
  unfold create_and_dispatch, stored. run.
  destruct created; cbn; eexists; (split; [reflexivity |]); cbn;
    (split_and!; try done; apply lookup_insert_eq).
Qed.

(** X12.  When no other process touches a free dataset and the task subsystem
    takes the calls, [export_data] returns with the lock held: the stored
    row is locked, the new task record is the current task and its task is
    the last of the queue.  Until something unlocks, another [export_data]
    raises [DatasetLocked] and queues nothing. *)
Theorem export_data_holds_lock (ExportCSVTask_name : string) (user : Z)
    (filename again : option string) (s : State) :
  undisturbed s → free_in_store s → faults s = [] →
  fst (export_data ExportCSVTask_name user filename s) = Return () ∧
  (locked <$> stored (snd (export_data ExportCSVTask_name user filename s))) = Some true ∧
  current_task (self (snd (export_data ExportCSVTask_name user filename s)))
    = Some (next_task_id s) ∧
  queue (snd (export_data ExportCSVTask_name user filename s))
    = queue s ++ [ExportCSVTask (slug (self s)) filename (next_task_id s)] ∧
  fst (export_data ExportCSVTask_name user again
         (snd (export_data ExportCSVTask_name user filename s))) = Raise DatasetLocked ∧
  queue (snd (export_data ExportCSVTask_name user again
                (snd (export_data ExportCSVTask_name user filename s))))
    = queue s ++ [ExportCSVTask (slug (self s)) filename (next_task_id s)].
Proof.
  intros Hu Hfree Hf.
  destruct (lock_alone s Hu Hfree)
    as (s1 & Hlock & Hu1 & Hst1 & Hf1 & _ & Hfs1 & Hnext1 & Hq1 & _).
  destruct (create_and_dispatch_run ExportCSVTask_name user
              (λ this task, ExportCSVTask (slug this) filename task) s1)
    as (s2 & Hrun & Hf2 & Hst2 & Hq2 & Hc2 & _); [by rewrite Hfs1 |].
  assert (Hexport : export_data ExportCSVTask_name user filename s = (Return (), s2))
    by (by apply (guarded_returns _ s s1 s2)).
  rewrite Hexport. cbn [fst snd].
  assert (Hheld : locked (self s2) = true) by (by rewrite Hf2, Hf1).
  assert (Hslug : slug (self s2) = slug (self s)) by (by rewrite Hf2, Hf1).
  assert (Hu2 : undisturbed s2) by (unfold undisturbed in *; congruence).
  destruct (lock_held s2 (fields (self s2)) Hu2 Hst2 Hheld) as (Hraise & _ & _ & Hq).
  unfold export_data at 1 2. rewrite (guarded_lock_raises _ s2 DatasetLocked Hraise).
  cbn [fst snd]. rewrite Hq, Hq2, Hq1, Hnext1, Hslug, Hst2. cbn.
  split_and!; try done; [by rewrite Hheld | rewrite Hf2; cbn; by rewrite Hnext1].
Qed.

Lemma export_data_holds_lock_witness :
  undisturbed sample_state ∧ free_in_store sample_state ∧ faults sample_state = [] ∧
  fst (export_data "panda.tasks.export.csv" 1 None sample_state) = Return () ∧
  fst (export_data "panda.tasks.export.csv" 1 (Some "again.csv")
         (snd (export_data "panda.tasks.export.csv" 1 None sample_state)))
    = Raise DatasetLocked.
Proof.
  assert (Hu : undisturbed sample_state) by reflexivity.
  assert (Hf : free_in_store sample_state)
    by (exists sample_fields; split; vm_compute; reflexivity).
  assert (Hn : faults sample_state = []) by reflexivity.
  split; [exact Hu |]. split; [exact Hf |]. split; [exact Hn |].
  destruct (export_data_holds_lock "panda.tasks.export.csv" 1 None (Some "again.csv")
              sample_state Hu Hf Hn) as (H1 & _ & _ & _ & H2 & _).
  split; [exact H1 | exact H2].
Defined.

(** The rest of the block of [import_data], when the task subsystem takes
    both calls. *)
Lemma start_import_run (user : Z) (upload : DataUpload) (task_type : TaskType)
    (external_id_field_index : option Z) (s : State) :
  faults s = [] →
  ∃ s', start_import user upload task_type external_id_field_index s = (Return (), s') ∧
    fields (self s')
      = set_creation_date (creation_date (self s'))
          (set_current_task (Some (next_task_id s))
             (set_initial_upload (initial_upload_after upload (self s))
                (set_sample_data (sample_data_after upload (self s)) (fields (self s))))) ∧
    stored s' = Some (fields (self s')) ∧
    queue s' = queue s ++ [ImportTask (tt_name task_type) (slug (self s)) (u_id upload)
                             external_id_field_index (next_task_id s)] ∧
    concurrent s' = concurrent s.
Proof.
  intros Hf. open_state s. cbn in Hf. subst fs.
  unfold start_import, stored, sample_data_after, initial_upload_after. run.
  destruct sample, upload0, rows; cbn; destruct created; cbn;
    eexists; (split; [reflexivity |]); cbn;
    (split_and!; try done; apply lookup_insert_eq).
Qed.

(** X13.  An import into a dataset whose schema has the columns of the upload,
    when no other process touches the free dataset and the task subsystem
    takes the calls: the method returns with the lock held and the import
    task queued under the id of the new current task.  The schema stays;
    the sample data are those of the upload only if the dataset had none;
    the upload becomes the initial upload only if the dataset had neither
    an initial upload nor a row count. *)
Theorem import_data_starts_task
    (get_import_task_type_for_upload : DataUpload → option TaskType)
    (user : Z) (upload : DataUpload) (external_id_field_index : option Z)
    (s : State) (c : ColumnDescriptor) (cs : list ColumnDescriptor)
    (task_type : TaskType) :
  let s' := snd (import_data get_import_task_type_for_upload user upload
                   external_id_field_index s) in
  undisturbed s → free_in_store s → faults s = [] →
  u_imported upload = false →
  get_import_task_type_for_upload upload = Some task_type →
  column_schema (self s) = Some (c :: cs) →
  u_columns upload = c_name <$> c :: cs →
  fst (import_data get_import_task_type_for_upload user upload external_id_field_index s)
    = Return () ∧
  (locked <$> stored s') = Some true ∧
  column_schema (self s') = Some (c :: cs) ∧
  sample_data (self s') = sample_data_after upload (self s) ∧
  initial_upload (self s') = initial_upload_after upload (self s) ∧
  current_task (self s') = Some (next_task_id s) ∧
  queue s' = queue s ++ [ImportTask (tt_name task_type) (slug (self s)) (u_id upload)
                           external_id_field_index (next_task_id s)].
Proof.
  intros s' Hu Hfree Hf Hi Ht Hs Hcols. subst s'.
  destruct (lock_alone s Hu Hfree)
    as (s1 & Hlock & Hu1 & Hst1 & Hf1 & _ & Hfs1 & Hnext1 & Hq1 & _).
  destruct (start_import_run user upload task_type external_id_field_index s1)
    as (s2 & Hrun & Hf2 & Hst2 & Hq2 & _); [by rewrite Hfs1 |].
  assert (Hs1 : column_schema (self s1) = Some (c :: cs)) by (by rewrite Hf1).
  assert (Hbody : import_data_body get_import_task_type_for_upload user upload
                    external_id_field_index s1 = (Return (), s2)).
  { unfold import_data_body. rewrite Hi, Ht. cbv [mbind M_bind].
    rewrite (check_or_create_schema_run upload s1 c cs Hs1).
    rewrite decide_False by (by intros ?). exact Hrun. }
  unfold import_data. rewrite (guarded_returns _ s s1 s2 Hlock Hbody). cbn [fst snd].
  assert (Hsample : sample_data (self s1) = sample_data (self s)) by (by rewrite Hf1).
  assert (Hinit : initial_upload (self s1) = initial_upload (self s)) by (by rewrite Hf1).
  assert (Hrows : row_count (self s1) = row_count (self s)) by (by rewrite Hf1).
  assert (Hslug : slug (self s1) = slug (self s)) by (by rewrite Hf1).
  assert (Hheld : locked (self s1) = true) by (by rewrite Hf1).
  rewrite Hst2, Hq2, Hq1, Hnext1, Hslug, Hf2. cbn.
  unfold sample_data_after, initial_upload_after.
  rewrite Hsample, Hinit, Hrows, Hs1, Hheld, Hnext1. done.
Qed.

Lemma import_data_starts_task_witness :
  undisturbed sample_state ∧ free_in_store sample_state ∧
  fst (import_data csv_import 1 (mkUpload 5 false ["a"; "b"] ["int"; "int"] None) None
         sample_state) = Return () ∧
  initial_upload (self (snd (import_data csv_import 1
                               (mkUpload 5 false ["a"; "b"] ["int"; "int"] None) None
                               sample_state))) = Some 5.
Proof.
  assert (Hu : undisturbed sample_state) by reflexivity.
  assert (Hf : free_in_store sample_state)
    by (exists sample_fields; split; vm_compute; reflexivity).
  split; [exact Hu |]. split; [exact Hf |].
  destruct (import_data_starts_task csv_import 1
              (mkUpload 5 false ["a"; "b"] ["int"; "int"] None) None sample_state
              (mkColumn "a" false "unicode" None None None)
              [mkColumn "b" false "unicode" None None None]
              (mkTaskType "panda.tasks.import.csv") Hu Hf)
    as (Hr & _ & _ & _ & Hinit & _); try reflexivity.
  split; [exact Hr | exact Hinit].
Defined.

(** The positional overrides, when the schema has a column for each
    value. *)
Lemma override_run {A} (update : A → ColumnDescriptor → ColumnDescriptor)
    (values : list A) :
  ∀ (i : nat) (s : State) (l : list ColumnDescriptor),
    column_schema (self s) = Some l →
    (i + length values ≤ length l)%nat →
    override update i values s
      = (Return (),
         with_schema
           (Some (take i l ++ zip_with update values (drop i l)
                  ++ drop (i + length values) l)) s).
Proof.
  induction values as [| v values IH]; intros i s l Hs Hlen; simpl in *.
  - rewrite Nat.add_0_r, take_drop, <- Hs. by rewrite with_schema_same.
  - cbv [mbind M_bind get_fields]. cbv beta iota. rewrite Hs.
    destruct (l !! i) as [c |] eqn:Hc; [| apply lookup_ge_None in Hc; lia].
    rewrite assign_schema_run.
    apply lookup_lt_Some in Hc as Hi.
    rewrite (IH (S i) _ (<[i := update v c]> l));
      [| apply with_schema_schema | rewrite length_insert; lia].
    rewrite with_schema_twice. do 3 f_equal.
    rewrite (take_S_r _ _ (update v c)) by (by apply list_lookup_insert_eq).
    rewrite take_insert_ge by lia.
    rewrite !drop_insert_lt by lia.
    rewrite (drop_S l c i Hc). simpl.
    rewrite <- app_assoc. simpl. by rewrite Nat.add_succ_r.
Qed.

(** With more values than columns the loop raises after it has overridden
    every column. *)
Lemma override_long {A} (update : A → ColumnDescriptor → ColumnDescriptor)
    (values : list A) :
  ∀ (i : nat) (s : State) (l : list ColumnDescriptor),
    column_schema (self s) = Some l →
    (i ≤ length l < i + length values)%nat →
    override update i values s
      = (Raise (IndexError "list index out of range"),
         with_schema (Some (take i l ++ zip_with update values (drop i l))) s).
Proof.
  induction values as [| v values IH]; intros i s l Hs Hlen; simpl in *; [lia |].
  cbv [mbind M_bind get_fields]. cbv beta iota. rewrite Hs.
  destruct (l !! i) as [c |] eqn:Hc.
  - rewrite assign_schema_run.
    apply lookup_lt_Some in Hc as Hi.
    rewrite (IH (S i) _ (<[i := update v c]> l));
      [| apply with_schema_schema | rewrite length_insert; lia].
    rewrite with_schema_twice. do 3 f_equal.
    rewrite (take_S_r _ _ (update v c)) by (by apply list_lookup_insert_eq).
    rewrite take_insert_ge by lia.
    rewrite !drop_insert_lt by lia.
    rewrite (drop_S l c i Hc). simpl.
    by rewrite <- app_assoc.
  - apply lookup_ge_None in Hc.
    rewrite (drop_ge l i) by lia. rewrite take_ge by lia. simpl.
    rewrite app_nil_r, <- Hs. by rewrite with_schema_same.
Qed.

Lemma overridden_length {A} (update : A → ColumnDescriptor → ColumnDescriptor)
    (values : option (list A)) (l : list ColumnDescriptor) :
  fits values l → length (overridden update values l) = length l.
Proof.
  unfold fits, overridden. destruct values as [[| v vs] |]; simpl; try done.
  intros Hlen. rewrite length_app. simpl. destruct l as [| c l]; simpl in *; [lia |].
  rewrite length_zip_with, length_drop. lia.
Qed.

(** One of the two override steps of [reindex_data], when the values fit
    the schema. *)
Lemma override_step_run {A} (update : A → ColumnDescriptor → ColumnDescriptor)
    (values : option (list A)) (s : State) (l : list ColumnDescriptor) :
  column_schema (self s) = Some l → fits values l →
  match values with
  | Some (t :: ts) => override update 0 (t :: ts)
  | _ => mret ()
  end s = (Return (), with_schema (Some (overridden update values l)) s).
Proof.
  intros Hs Hfit. unfold fits in Hfit.
  destruct values as [[| v vs] |]; simpl in Hfit; cbv beta iota;
    try (unfold overridden; rewrite <- Hs; by rewrite with_schema_same).
  rewrite (override_run update (v :: vs) 0%nat s l Hs) by (simpl; lia).
  by rewrite take_0, drop_0.
Qed.

(** The naming step of [reindex_data] on a dataset with a schema. *)
Lemma generate_typed_column_names_run (nfkd_ascii : string → string) (s : State)
    (l : list ColumnDescriptor) :
  column_schema (self s) = Some l →
  ∃ out, _generate_typed_column_names nfkd_ascii (S (length l)) l = Some out ∧
    generate_typed_column_names nfkd_ascii s = (Return (), with_schema (Some out) s).
Proof.
  intros Hs.
  destruct (generate_from_spec nfkd_ascii (S (length l)) l []) as (out & Hout & _);
    [simpl; lia |].
  exists out. split; [exact Hout |].
  unfold generate_typed_column_names. cbv [mbind M_bind get_fields]. cbv beta iota.
  rewrite Hs. unfold _generate_typed_column_names. rewrite Hout.
  apply assign_schema_run.
Qed.

Lemma with_schema_frame (v : option (list ColumnDescriptor)) (s : State) :
  faults (with_schema v s) = faults s ∧ next_task_id (with_schema v s) = next_task_id s ∧
  queue (with_schema v s) = queue s ∧ concurrent (with_schema v s) = concurrent s ∧
  slug (self (with_schema v s)) = slug (self s) ∧
  locked (self (with_schema v s)) = locked (self s).
Proof. by destruct s as [[[] ?] ? ? ? ? ? ? ? ? ? ? ? ?]. Qed.

(** X14.  A reindex whose overrides fit the schema, when no other process touches
    the free dataset and the task subsystem takes the calls: the flags, then
    the types, are overridden by position, the names are made anew from the
    result, and the method returns with that schema stored, the lock held,
    and the reindex task queued under the id of the new current task. *)
Theorem reindex_data_starts_task (nfkd_ascii : string → string) (user : Z)
    (typed_columns : option (list bool)) (column_types : option (list string))
    (s : State) (l : list ColumnDescriptor) :
  let l' := overridden set_type column_types (overridden set_indexed typed_columns l) in
  let s' := snd (reindex_data nfkd_ascii user typed_columns column_types s) in
  undisturbed s → free_in_store s → faults s = [] →
  column_schema (self s) = Some l →
  fits typed_columns l → fits column_types l →
  ∃ out, _generate_typed_column_names nfkd_ascii (S (length l')) l' = Some out ∧
    fst (reindex_data nfkd_ascii user typed_columns column_types s) = Return () ∧
    (column_schema <$> stored s') = Some (Some out) ∧
    (locked <$> stored s') = Some true ∧
    current_task (self s') = Some (next_task_id s) ∧
    queue s' = queue s ++ [ReindexTask (slug (self s)) (next_task_id s)].
Proof.
  intros l' s' Hu Hfree Hf Hs Hfit1 Hfit2. subst s'.
  destruct (lock_alone s Hu Hfree)
    as (s1 & Hlock & Hu1 & Hst1 & Hf1 & _ & Hfs1 & Hnext1 & Hq1 & _).
  assert (Hs1 : column_schema (self s1) = Some l) by (by rewrite Hf1).
  assert (Hslug : slug (self s1) = slug (self s)) by (by rewrite Hf1).
  assert (Hheld : locked (self s1) = true) by (by rewrite Hf1).
  set (l1 := overridden set_indexed typed_columns l) in *.
  assert (Hl1 : length l1 = length l) by (by apply overridden_length).
  set (s2 := with_schema (Some l1) s1).
  set (s3 := with_schema (Some l') s2).
  destruct (generate_typed_column_names_run nfkd_ascii s3 l') as (out & Hout & Hgen);
    [apply with_schema_schema |].
  set (s4 := with_schema (Some out) s3) in *.
  destruct (with_schema_frame (Some l1) s1) as (F1 & N1 & Q1 & C1 & S1 & L1).
  destruct (with_schema_frame (Some l') s2) as (F2 & N2 & Q2 & C2 & S2 & L2).
  destruct (with_schema_frame (Some out) s3) as (F3 & N3 & Q3 & C3 & S3 & L3).
  fold s2 in F1, N1, Q1, C1, S1, L1. fold s3 in F2, N2, Q2, C2, S2, L2.
  fold s4 in F3, N3, Q3, C3, S3, L3.
  destruct (create_and_dispatch_run "panda.tasks.reindex" user
              (λ this task, ReindexTask (slug this) task) s4)
    as (s5 & Hrun & Hf5 & Hst5 & Hq5 & _); [congruence |].
  assert (Hbody : reindex_data_body nfkd_ascii user typed_columns column_types s1
                  = (Return (), s5)).
  { unfold reindex_data_body. cbv [mbind M_bind].
    rewrite (override_step_run set_indexed typed_columns s1 l Hs1 Hfit1). fold l1 s2.
    rewrite (override_step_run set_type column_types s2 l1);
      [| apply with_schema_schema | unfold fits in *; by rewrite Hl1].
    fold l' s3. rewrite Hgen. exact Hrun. }
  exists out. split; [exact Hout |].
  unfold reindex_data. rewrite (guarded_returns _ s s1 s5 Hlock Hbody). cbn [fst snd].
  rewrite Hst5, Hq5, Hf5. cbn.
  assert (Hschema4 : column_schema (self s4) = Some out) by apply with_schema_schema.
  rewrite Hschema4.
  split_and!; try done; congruence.
Qed.

Lemma reindex_data_starts_task_witness :
  undisturbed sample_state ∧ free_in_store sample_state ∧
  fits (Some [true]) schema_a_b ∧
  fst (reindex_data ascii_names 1 (Some [true]) None sample_state) = Return () ∧
  queue (snd (reindex_data ascii_names 1 (Some [true]) None sample_state))
    = [ReindexTask "d" 1].
Proof.
  assert (Hu : undisturbed sample_state) by reflexivity.
  assert (Hf : free_in_store sample_state)
    by (exists sample_fields; split; vm_compute; reflexivity).
  assert (Hfit : fits (Some [true]) schema_a_b) by (unfold fits; simpl; lia).
  split; [exact Hu |]. split; [exact Hf |]. split; [exact Hfit |].
  destruct (reindex_data_starts_task ascii_names 1 (Some [true]) None sample_state
              schema_a_b Hu Hf eq_refl eq_refl Hfit)
    as (out & _ & Hr & _ & _ & _ & Hq); [unfold fits; simpl; lia |].
  split; [exact Hr | exact Hq].
Defined.

Example reindex_data_names_first_column :
  (column_schema <$> stored (snd (reindex_data ascii_names 1 (Some [true]) None sample_state)))
  = Some (Some [mkColumn "a" true "unicode" (Some "column_unicode_a") None None;
                mkColumn "b" false "unicode" None None None]).
Proof. vm_compute. reflexivity. Qed.

(** X15.  With more flags than columns [reindex_data] raises [IndexError] after it
    has overridden the flag of every column: [unlock] stores the schema
    with the new flags and the names of before, and the dataset is left
    unlocked. *)
Theorem reindex_data_too_many_flags (nfkd_ascii : string → string) (user : Z)
    (typed_columns : list bool) (column_types : option (list string))
    (s : State) (l : list ColumnDescriptor) :
  let s' := snd (reindex_data nfkd_ascii user (Some typed_columns) column_types s) in
  fst (lock s) = Return () →
  column_schema (self s) = Some l →
  (length l < length typed_columns)%nat →
  fst (reindex_data nfkd_ascii user (Some typed_columns) column_types s)
    = Raise (IndexError "list index out of range") ∧
  (column_schema <$> stored s') = Some (Some (zip_with set_indexed typed_columns l)) ∧
  (locked <$> stored s') = Some false.
Proof.
  intros s' Hl Hs Hlen. subst s'. unfold reindex_data.
  destruct (lock_frame s) as (_ & _ & Hschema & _). rewrite Hs in Hschema.
  set (s1 := snd (lock s)) in *.
  assert (Hb : reindex_data_body nfkd_ascii user (Some typed_columns) column_types s1
               = (Raise (IndexError "list index out of range"),
                  with_schema (Some (zip_with set_indexed typed_columns l)) s1)).
  { unfold reindex_data_body. cbv [mbind M_bind].
    destruct typed_columns as [| t ts]; [simpl in Hlen; lia |].
    rewrite (override_long set_indexed (t :: ts) 0%nat s1 l Hschema) by (simpl in *; lia).
    by rewrite take_0, drop_0. }
  rewrite (guarded_releases _ s _ Hl) by (subst s1; by rewrite Hb).
  fold s1. rewrite Hb. cbn [fst snd].
  rewrite stored_after_unlock, unlock_fields. cbn [fmap option_fmap option_map].
  split_and!; [done | | done].
  do 2 f_equal.
Qed.

Lemma reindex_data_too_many_flags_witness :
  fst (lock sample_state) = Return () ∧
  fst (reindex_data ascii_names 1 (Some [true; true; true]) None sample_state)
    = Raise (IndexError "list index out of range") ∧
  (column_schema <$> stored (snd (reindex_data ascii_names 1 (Some [true; true; true]) None
                                    sample_state)))
    = Some (Some (zip_with set_indexed [true; true; true] schema_a_b)).
Proof.
  assert (H : fst (lock sample_state) = Return ()) by (vm_compute; reflexivity).
  split; [exact H |].
  destruct (reindex_data_too_many_flags ascii_names 1 [true; true; true] None sample_state
              schema_a_b H eq_refl) as (Hr & Hs & _); [simpl; lia |].
  split; [exact Hr | exact Hs].
Defined.

(** X16.  On a dataset without a schema [reindex_data] raises a [TypeError],
    whatever the overrides, and leaves the dataset unlocked. *)
Theorem reindex_data_without_schema (nfkd_ascii : string → string) (user : Z)
    (typed_columns : option (list bool)) (column_types : option (list string))
    (s : State) :
  fst (lock s) = Return () →
  column_schema (self s) = None →
  (∃ msg, fst (reindex_data nfkd_ascii user typed_columns column_types s)
          = Raise (TypeError msg)) ∧
  (locked <$> stored (snd (reindex_data nfkd_ascii user typed_columns column_types s)))
    = Some false.
Proof.
  intros Hl Hs. unfold reindex_data.
  destruct (lock_frame s) as (_ & _ & Hschema & _). rewrite Hs in Hschema.
  set (s1 := snd (lock s)) in *.
  assert (Hb : ∃ msg, reindex_data_body nfkd_ascii user typed_columns column_types s1
                      = (Raise (TypeError msg), s1)).
  { unfold reindex_data_body, generate_typed_column_names.
    cbv [mbind M_bind get_fields mret M_ret raise].
    destruct typed_columns as [[| t ts] |], column_types as [[| u us] |];
      simpl; cbv [mbind M_bind get_fields mret M_ret raise]; rewrite ?Hschema;
      by eexists. }
  destruct Hb as [msg Hb].
  rewrite (guarded_releases _ s (TypeError msg) Hl) by (subst s1; by rewrite Hb).
  fold s1. rewrite Hb. cbn [fst snd].
  rewrite stored_after_unlock, unlock_fields. split; [by exists msg | done].
Qed.

Lemma reindex_data_without_schema_witness :
  fst (lock (with_schema None sample_state)) = Return () ∧
  fst (reindex_data ascii_names 1 None None (with_schema None sample_state))
    = Raise (TypeError "'NoneType' object is not iterable").
Proof.
  assert (H : fst (lock (with_schema None sample_state)) = Return ())
    by (vm_compute; reflexivity).
  split; [exact H |].
  destruct (reindex_data_without_schema ascii_names 1 None None
              (with_schema None sample_state) H eq_refl) as [[msg Hmsg] _].
  rewrite Hmsg. vm_compute in Hmsg. by injection Hmsg as <-.
Defined.

(** * More on the rows *)

(** What [add_row] leaves besides the count and the summary. *)
Lemma add_row_state (user : Z) (data : list string) (external_id : option string)
    (s : State) :
  let s' := snd (add_row user data external_id s) in
  data_core s' = upsert (data_core s)
                   (mkSolrRow (slug (self s)) (row_key s external_id) data) ∧
  slug (self s') = slug (self s) ∧
  sample_data (self s')
    = Some (if decide (length (samples (self s)) < 5)%nat
            then samples (self s) ++ [data] else samples (self s)) ∧
  last_modified_by (self s') = Some user.
Proof.
  open_state s. unfold add_row, row_key, samples.
  destruct external_id as [e |]; run;
    destruct sample as [[| x sample] |]; cbn;
    try case_decide; cbn; destruct created; cbn; done.
Qed.

Lemma rows_of_delete_rows (sl e : string) (d : gmap string (gmap string SolrRow)) :
  rows_of sl (delete_rows (ByDatasetAndId sl e) d) = delete e (rows_of sl d).
Proof. unfold rows_of at 1. simpl. by rewrite lookup_insert_eq. Qed.

(** What [delete_row] leaves. *)
Lemma delete_row_run (user : Z) (external_id : string) (s : State) :
  let s' := snd (delete_row user external_id s) in
  fst (delete_row user external_id s) = Return () ∧
  data_core s' = delete_rows (ByDatasetAndId (slug (self s)) external_id) (data_core s) ∧
  slug (self s') = slug (self s) ∧
  row_count (self s') = Some (numFound (slug (self s)) (data_core s')) ∧
  last_modification (self s') = Some "1 row deleted" ∧
  last_modified_by (self s') = Some user ∧
  sample_data (self s') = sample_data (self s) ∧
  stored s' = Some (fields (self s')).
Proof.
  open_state s. unfold delete_row, stored. run.
  destruct created; cbn; (split_and!; try done; apply lookup_insert_eq).
Qed.

(** [get_row] gives the row filed under the key in the dataset, or nothing;
    it changes nothing but the log of queries. *)
Lemma get_row_run (external_id : string) (s : State) :
  fst (get_row external_id s) = Return (own_rows s !! external_id) ∧
  data_core (snd (get_row external_id s)) = data_core s ∧
  self (snd (get_row external_id s)) = self s ∧
  db (snd (get_row external_id s)) = db s.
Proof.
  open_state s. unfold get_row, own_rows. run.
  destruct (rows_of sl rows_core !! external_id); cbn; done.
Qed.

(** X17.  What is added can be read, what is deleted cannot: after [add_row]
    under a key, [get_row] gives the row with the data just added, whatever
    was there; after [delete_row] of a key, [get_row] gives nothing; and
    neither touches the row of another key. *)
Theorem get_row_after_add_and_delete (user : Z) (data : list string)
    (key other : string) (s : State) :
  fst (get_row key (snd (add_row user data (Some key) s)))
    = Return (Some (mkSolrRow (slug (self s)) key data)) ∧
  fst (get_row key (snd (delete_row user key s))) = Return None ∧
  (other ≠ key →
   fst (get_row other (snd (add_row user data (Some key) s))) = fst (get_row other s) ∧
   fst (get_row other (snd (delete_row user key s))) = fst (get_row other s)).
Proof.
  destruct (add_row_state user data (Some key) s) as (Hadd & Hslug & _).
  destruct (delete_row_run user key s) as (_ & Hdel & Hslug' & _).
  pose proof (rows_of_upsert (data_core s) (mkSolrRow (slug (self s)) key data)) as Hup.
  pose proof (rows_of_delete_rows (slug (self s)) key (data_core s)) as Hdown.
  cbn [r_dataset_slug r_external_id row_key] in *.
  rewrite !(proj1 (get_row_run _ _)). unfold own_rows.
  rewrite Hslug, Hslug', Hadd, Hdel, Hup, Hdown.
  split; [| split].
  - rewrite lookup_insert_eq. reflexivity.
  - rewrite lookup_delete_eq. reflexivity.
  - intros Hne. rewrite lookup_insert_ne by congruence.
    rewrite lookup_delete_ne by congruence. split; reflexivity.
Qed.

Lemma get_row_after_add_and_delete_witness :
  "e2" ≠ "e1" ∧
  fst (get_row "e2" (snd (add_row 1 ["x"] (Some "e1") sample_state)))
    = fst (get_row "e2" sample_state).
Proof.
  assert (H : "e2" ≠ "e1") by discriminate.
  split; [exact H |].
  destruct (get_row_after_add_and_delete 1 ["x"] "e1" "e2" sample_state)
    as (_ & _ & Hother).
  exact (proj1 (Hother H)).
Defined.

(** X18.  Deleting a row: the row of the key is gone and the others stay, the
    row count is what the index engine then counts, the summary reads
    "1 row deleted" and the user is recorded.  This is so also when no row
    had the key: then no row goes and the summary is the same. *)
Theorem delete_row_effect (user : Z) (external_id : string) (s : State) :
  let s' := snd (delete_row user external_id s) in
  fst (delete_row user external_id s) = Return () ∧
  own_rows s' = delete external_id (own_rows s) ∧
  row_count_in_sync s' ∧
  last_modification (self s') = Some "1 row deleted" ∧
  last_modified_by (self s') = Some user ∧
  stored s' = Some (fields (self s')) ∧
  (own_rows s !! external_id = None →
   own_rows s' = own_rows s ∧ row_count (self s') = Some (numFound (slug (self s)) (data_core s))) ∧
  (is_Some (own_rows s !! external_id) →
   row_count (self s') = Some (numFound (slug (self s)) (data_core s) - 1)).
Proof.
  intros s'. subst s'.
  destruct (delete_row_run user external_id s)
    as (Hr & Hdel & Hslug & Hcount & Hsum & Hby & _ & Hst).
  pose proof (rows_of_delete_rows (slug (self s)) external_id (data_core s)) as Hdown.
  assert (Hrows : own_rows (snd (delete_row user external_id s))
                  = delete external_id (own_rows s)).
  { unfold own_rows. rewrite Hslug, Hdel. exact Hdown. }
  assert (Hn : numFound (slug (self s)) (data_core (snd (delete_row user external_id s)))
               = Z.of_nat (size (delete external_id (own_rows s)))).
  { unfold numFound. rewrite <- Hrows. unfold own_rows. by rewrite Hslug. }
  split; [exact Hr |]. split; [exact Hrows |].
  split; [unfold row_count_in_sync; rewrite Hcount, Hslug; reflexivity |].
  split; [exact Hsum |]. split; [exact Hby |]. split; [exact Hst |].
  rewrite Hcount, Hn. split.
  - intros Hnone. rewrite Hrows, (delete_id _ _ Hnone). split; reflexivity.
  - intros [r Hrow]. rewrite map_size_delete, Hrow.
    assert (size (own_rows s) ≠ 0%nat) by (apply map_size_ne_0_lookup; eauto).
    unfold numFound. fold (own_rows s). f_equal. lia.
Qed.

Lemma delete_row_effect_witness :
  is_Some (own_rows stale_state !! "e1") ∧
  row_count (self (snd (delete_row 1 "e1" stale_state))) = Some 0.
Proof.
  assert (H : is_Some (own_rows stale_state !! "e1")) by (vm_compute; eauto).
  assert (Hn : Some (numFound (slug (self stale_state)) (data_core stale_state) - 1)
               = Some 0) by (vm_compute; reflexivity).
  split; [exact H |].
  destruct (delete_row_effect 1 "e1" stale_state)
    as (_ & _ & _ & _ & _ & _ & _ & Hsome).
  exact (eq_trans (Hsome H) Hn).
Defined.

(** What [add_many_rows] leaves. *)
Lemma add_many_rows_run (user : Z) (data : list (list string * option string))
    (s : State) :
  let s' := snd (add_many_rows user data s) in
  ∃ rows n,
    make_data_rows data s
      = (Return rows, snd (put_solr (data_core s) (datasets_core s) n s)) ∧
    fst (add_many_rows user data s) = Return rows ∧
    data_core s' = foldl upsert (data_core s) rows ∧
    slug (self s') = slug (self s) ∧
    row_count (self s') = Some (numFound (slug (self s)) (data_core s')) ∧
    last_modification (self s')
      = Some (many_rows_summary
                (numFound (slug (self s)) (data_core s') - default 0 (row_count (self s)))
                (Z.of_nat (length data)
                 - (numFound (slug (self s)) (data_core s')
                    - default 0 (row_count (self s))))) ∧
    sample_data (self s')
      = Some (if decide (length (samples (self s)) < 5)%nat
              then samples (self s)
                   ++ (fst <$> take (5 - length (samples (self s))) data)
              else samples (self s)) ∧
    last_modified_by (self s') = Some user ∧
    stored s' = Some (fields (self s')).
Proof.
  destruct (make_data_rows_run data s) as (solr_rows & n & Hrun & Hlen).
  exists solr_rows, n. split; [exact Hrun |].
  unfold add_many_rows, stored, samples. cbv [mbind M_bind]. rewrite Hrun. clear Hrun.
  open_state s. run.
  destruct sample as [[| x sample] |]; cbn; try case_decide; cbn;
    destruct created; cbn;
    (split_and!; try reflexivity; apply lookup_insert_eq).
Qed.

Lemma make_data_rows_keyed (data : list (list string * option string)) (s : State) :
  all_keyed data →
  make_data_rows data s = (Return (batch_rows (slug (self s)) data), s).
Proof.
  unfold all_keyed. induction data as [| [d e] data IH]; intros Hk; [done |].
  apply Forall_cons in Hk as [[k Hk] Hrest]. simpl in Hk. subst e.
  unfold batch_rows. simpl. cbv [mbind M_bind make_data_row get_fields mret M_ret].
  by rewrite (IH Hrest).
Qed.

Lemma batch_rows_keys (sl : string) (data : list (list string * option string)) :
  r_external_id <$> batch_rows sl data = batch_keys data.
Proof.
  unfold batch_rows, batch_keys.
  induction data as [| [d [e |]] data IH]; [reflexivity | | exact IH].
  cbn [omap list_omap snd fst]. rewrite fmap_cons. f_equal. exact IH.
Qed.

(** The keys of the dataset after a batch: those before and those of the
    batch. *)
Lemma dom_rows_after_batch (sl : string) (data : list (list string * option string)) :
  ∀ d : gmap string (gmap string SolrRow),
    dom (rows_of sl (foldl upsert d (batch_rows sl data)))
    = dom (rows_of sl d) ∪ list_to_set (batch_keys data).
Proof.
  unfold batch_rows, batch_keys.
  induction data as [| [x [e |]] data IH]; intros d; simpl.
  - by rewrite (right_id_L ∅ (∪)).
  - rewrite IH.
    pose proof (rows_of_upsert d (mkSolrRow sl e x)) as Hup. simpl in Hup.
    rewrite Hup, dom_insert_L.
    rewrite (comm_L (∪) {[e]} (dom (rows_of sl d))). by rewrite <- (assoc_L (∪)).
  - apply IH.
Qed.

(** X19.  In a batch whose rows all carry an external id, on a dataset whose row
    count agrees with the index engine: "added" is the number of different
    keys of the batch that had no row, so that a key met twice in the batch
    counts once as added and once as updated. *)
Theorem add_many_rows_counts_new_keys (user : Z)
    (data : list (list string * option string)) (s : State) :
  let s' := snd (add_many_rows user data s) in
  let new := Z.of_nat (size (list_to_set (batch_keys data) ∖ dom (own_rows s))) in
  all_keyed data → row_count_in_sync s →
  row_count (self s') = Some (default 0 (row_count (self s)) + new) ∧
  last_modification (self s')
    = Some (many_rows_summary new (Z.of_nat (length data) - new)) ∧
  dom (own_rows s') = dom (own_rows s) ∪ list_to_set (batch_keys data).
Proof.
  intros s' new Hk Hsync. subst s'.
  destruct (add_many_rows_run user data s)
    as (rows & n & Hrows & _ & Hcore & Hslug & Hcount & Hsum & _).
  rewrite (make_data_rows_keyed data s Hk) in Hrows. injection Hrows as <- _.
  assert (Hdom : dom (own_rows (snd (add_many_rows user data s)))
                 = dom (own_rows s) ∪ list_to_set (batch_keys data)).
  { unfold own_rows. rewrite Hslug, Hcore. apply dom_rows_after_batch. }
  assert (Hn : numFound (slug (self s)) (data_core (snd (add_many_rows user data s)))
               = default 0 (row_count (self s)) + new).
  { unfold row_count_in_sync in Hsync. rewrite Hsync. unfold numFound.
    rewrite <- Hslug at 1. fold (own_rows (snd (add_many_rows user data s))).
    fold (own_rows s). rewrite <- !size_dom, Hdom, size_union_alt. subst new. lia. }
  rewrite Hcount, Hsum, Hn. split; [reflexivity |]. split; [| exact Hdom].
  do 2 f_equal; lia.
Qed.

Lemma add_many_rows_counts_new_keys_witness :
  all_keyed batch_3_new_2_repeated ∧ row_count_in_sync sample_state ∧
  row_count (self (snd (add_many_rows 1 batch_3_new_2_repeated sample_state)))
    = Some (default 0 (row_count (self sample_state))
            + Z.of_nat (size (list_to_set (batch_keys batch_3_new_2_repeated)
                              ∖ dom (own_rows sample_state)))).
Proof.
  assert (Hk : all_keyed batch_3_new_2_repeated)
    by (repeat constructor; eexists; reflexivity).
  assert (Hs : row_count_in_sync sample_state) by (vm_compute; reflexivity).
  split; [exact Hk |]. split; [exact Hs |].
  exact (proj1 (add_many_rows_counts_new_keys 1 batch_3_new_2_repeated sample_state Hk Hs)).
Defined.

(** X20.  The empty batch on a dataset whose row count agrees with the index
    engine: the count stays, nothing is added to the index or to the sample
    rows, and the summary reads "0 rows updated". *)
Theorem add_many_rows_empty (user : Z) (s : State) :
  row_count_in_sync s →
  fst (add_many_rows user [] s) = Return [] ∧
  data_core (snd (add_many_rows user [] s)) = data_core s ∧
  row_count (self (snd (add_many_rows user [] s))) = Some (default 0 (row_count (self s))) ∧
  samples (self (snd (add_many_rows user [] s))) = samples (self s) ∧
  last_modification (self (snd (add_many_rows user [] s))) = Some "0 rows updated".
Proof.
  intros Hsync. unfold row_count_in_sync in Hsync.
  destruct (add_many_rows_run user [] s)
    as (rows & n & Hrows & Hr & Hcore & Hslug & Hcount & Hsum & Hsample & _).
  injection Hrows as <- _. simpl in Hcore.
  rewrite Hr, Hcount, Hsum, Hcore, <- Hsync, Z.sub_diag.
  unfold samples at 1. rewrite Hsample.
  split; [reflexivity |]. split; [reflexivity |]. split; [reflexivity |].
  split; [| reflexivity].
  case_decide; simpl; [by rewrite take_nil, app_nil_r | reflexivity].
Qed.

Lemma add_many_rows_empty_witness :
  row_count_in_sync added_state ∧
  last_modification (self (snd (add_many_rows 1 [] added_state))) = Some "0 rows updated".
Proof.
  assert (Hs : row_count_in_sync added_state) by (vm_compute; reflexivity).
  split; [exact Hs |].
  destruct (add_many_rows_empty 1 added_state Hs) as (_ & _ & _ & _ & H). exact H.
Defined.

(** What [delete_all_rows] leaves, whether it returns or raises. *)
Lemma delete_all_rows_run (user : Z) (s : State) :
  let s' := snd (delete_all_rows user s) in
  data_core s' = delete_rows (ByDataset (slug (self s))) (data_core s) ∧
  slug (self s') = slug (self s) ∧
  row_count (self s') = Some 0 ∧
  last_modified (self s') = Some (clock s (ticks s)) ∧
  last_modified_by (self s') = last_modified_by (self s) ∧
  sample_data (self s') = sample_data (self s).
Proof.
  open_state s. unfold delete_all_rows. run.
  destruct rows; cbn; [destruct created; cbn |]; done.
Qed.

(** X21.  Every row operation leaves the row count of the instance equal to what
    the index engine counts for the dataset, whatever the count was before:
    [add_row], [add_many_rows] and [delete_row] by asking the index engine,
    [delete_all_rows] because it leaves no row and sets 0. *)
Theorem row_operations_reconcile (user : Z) (data : list string)
    (external_id : option string) (batch : list (list string * option string))
    (key : string) (s : State) :
  row_count_in_sync (snd (add_row user data external_id s)) ∧
  row_count_in_sync (snd (add_many_rows user batch s)) ∧
  row_count_in_sync (snd (delete_row user key s)) ∧
  row_count_in_sync (snd (delete_all_rows user s)).
Proof.
  unfold row_count_in_sync. split; [| split; [| split]].
  - destruct (add_row_run user data external_id s) as (_ & Hcount & _).
    destruct (add_row_state user data external_id s) as (Hcore & Hslug & _).
    rewrite Hcount, Hslug, Hcore. reflexivity.
  - destruct (add_many_rows_run user batch s)
      as (rows & n & _ & _ & _ & Hslug & Hcount & _).
    rewrite Hcount, Hslug. reflexivity.
  - destruct (delete_row_run user key s) as (_ & _ & Hslug & Hcount & _).
    rewrite Hcount, Hslug. reflexivity.
  - destruct (delete_all_rows_run user s) as (Hcore & Hslug & Hcount & _).
    rewrite Hcount, Hslug, Hcore. unfold numFound, rows_of. simpl.
    by rewrite lookup_delete_eq.
Qed.

(** X22.  The sample rows never pass five: a dataset with at most five keeps at
    most five through [add_row] and [add_many_rows], which only append to
    them, and [add_many_rows] fills them up to five with the first rows of
    the batch. *)
Theorem sample_data_bounded (user : Z) (data : list string)
    (external_id : option string) (batch : list (list string * option string))
    (s : State) :
  (length (samples (self s)) ≤ 5)%nat →
  (length (samples (self (snd (add_row user data external_id s)))) ≤ 5)%nat ∧
  samples (self s) `prefix_of` samples (self (snd (add_row user data external_id s))) ∧
  length (samples (self (snd (add_many_rows user batch s))))
    = Nat.min 5 (length (samples (self s)) + length batch) ∧
  samples (self s) `prefix_of` samples (self (snd (add_many_rows user batch s))).
Proof.
  intros Hlen.
  destruct (add_row_state user data external_id s) as (_ & _ & Hone & _).
  destruct (add_many_rows_run user batch s)
    as (rows & n & _ & _ & _ & _ & _ & _ & Hmany & _).
  assert (Hone' : samples (self (snd (add_row user data external_id s)))
                  = if decide (length (samples (self s)) < 5)%nat
                    then samples (self s) ++ [data] else samples (self s))
    by (unfold samples at 1; rewrite Hone; reflexivity).
  assert (Hmany' : samples (self (snd (add_many_rows user batch s)))
                   = if decide (length (samples (self s)) < 5)%nat
                     then samples (self s)
                          ++ (fst <$> take (5 - length (samples (self s))) batch)
                     else samples (self s))
    by (unfold samples at 1; rewrite Hmany; reflexivity).
  rewrite Hone', Hmany'. clear Hone Hmany Hone' Hmany'.
  destruct (decide (length (samples (self s)) < 5)%nat) as [Hlt | Hge].
  - split; [rewrite length_app; simpl; lia |].
    split; [by apply prefix_app_r |].
    split; [| by apply prefix_app_r].
    rewrite length_app, length_fmap, length_take. lia.
  - split; [lia |]. split; [done |]. split; [lia | done].
Qed.

Lemma sample_data_bounded_witness :
  (length (samples (self sample_state)) ≤ 5)%nat ∧
  length (samples (self (snd (add_many_rows 1 batch_3_new_2_repeated sample_state))))
    = Nat.min 5 (length (samples (self sample_state)) + length batch_3_new_2_repeated).
Proof.
  assert (H : (length (samples (self sample_state)) ≤ 5)%nat) by (simpl; lia).
  split; [exact H |].
  destruct (sample_data_bounded 1 [] None batch_3_new_2_repeated sample_state H)
    as (_ & _ & Hm & _). exact Hm.
Defined.

(** X23.  Two [add_row] under one key, from any state: the second leaves the row
    count the first set and reads "1 row updated", and the row of the key
    holds the data of the second. *)
Theorem add_row_twice (user : Z) (first second : list string) (key : string) (s : State) :
  let once := snd (add_row user first (Some key) s) in
  let twice := snd (add_row user second (Some key) once) in
  row_count (self twice) = row_count (self once) ∧
  last_modification (self twice) = Some "1 row updated" ∧
  own_rows twice !! key = Some (mkSolrRow (slug (self s)) key second).
Proof.
  intros once twice. subst twice.
  pose proof (add_row_run user first (Some key) s) as (_ & Hcount1 & _).
  pose proof (add_row_state user first (Some key) s) as (Hcore1 & Hslug1 & _).
  pose proof (add_row_run user second (Some key) once) as (_ & Hcount2 & Hsum2 & _).
  pose proof (add_row_state user second (Some key) once) as (Hcore2 & Hslug2 & _).
  cbn [row_key] in *. fold once in Hcount1, Hcore1, Hslug1.
  clearbody once.
  set (sl := slug (self s)) in *.
  set (d1 := upsert (data_core s) (mkSolrRow sl key first)) in *.
  rewrite Hslug1, Hcore1 in Hcount2, Hsum2, Hcore2. rewrite Hslug1 in Hslug2.
  assert (Hold : is_Some (rows_of sl d1 !! key)).
  { pose proof (rows_of_upsert (data_core s) (mkSolrRow sl key first)) as Hup.
    cbn [r_dataset_slug r_external_id] in Hup. fold d1 in Hup.
    rewrite Hup, lookup_insert_eq. eauto. }
  pose proof (numFound_upsert_old d1 (mkSolrRow sl key second) Hold) as Hn.
  cbn [r_dataset_slug r_external_id] in Hn.
  rewrite Hn in Hcount2, Hsum2. rewrite Hcount1 in Hsum2. cbn [default] in Hsum2.
  rewrite Z.sub_diag in Hsum2.
  split; [congruence |]. split; [exact Hsum2 |].
  unfold own_rows. rewrite Hslug2, Hcore2.
  pose proof (rows_of_upsert d1 (mkSolrRow sl key second)) as Hup.
  cbn [r_dataset_slug r_external_id] in Hup.
  rewrite Hup. apply lookup_insert_eq.
Qed.

(** X24.  Deleting rows does not touch the sample rows, so that a deleted row may
    stay among them; and [delete_all_rows] stamps the time but, unlike
    [delete_row], does not record the user. *)
Theorem deletes_keep_sample_data (user : Z) (key : string) (s : State) :
  sample_data (self (snd (delete_row user key s))) = sample_data (self s) ∧
  sample_data (self (snd (delete_all_rows user s))) = sample_data (self s) ∧
  last_modified_by (self (snd (delete_row user key s))) = Some user ∧
  last_modified_by (self (snd (delete_all_rows user s))) = last_modified_by (self s) ∧
  last_modified (self (snd (delete_all_rows user s))) = Some (clock s (ticks s)).
Proof.
  destruct (delete_row_run user key s) as (_ & _ & _ & _ & _ & Hby & Hsample & _).
  destruct (delete_all_rows_run user s) as (_ & _ & _ & Hat & Hby' & Hsample').
  by split_and!.
Qed.

(** X25.  [on_dataset_delete] dispatches the purge before it deletes the
    catalog document: when the dispatch fails, the receiver raises what the
    task subsystem raised and so does [Dataset.delete]; no purge task is
    queued, the catalog document and the rows of the dataset stay in the
    index, and the record is stored as before, its removal rolled back. *)
Theorem delete_dataset_dispatch_fails (msg : string) (rest : list (option string))
    (instance : Fields) (s : State) :
  faults s = Some msg :: rest →
  fst (on_dataset_delete instance s) = Raise (TaskSubsystemError msg) ∧
  datasets_core (snd (on_dataset_delete instance s)) = datasets_core s ∧
  fst (delete_dataset s) = Raise (TaskSubsystemError msg) ∧
  queue (snd (delete_dataset s)) = queue s ∧
  datasets_core (snd (delete_dataset s)) = datasets_core s ∧
  data_core (snd (delete_dataset s)) = data_core s ∧
  stored (snd (delete_dataset s)) = stored s.
Proof.
  intros Hf. open_state s. cbn in Hf. subst fs.
  unfold delete_dataset, stored. destruct task as [task |]; run; by split_and!.
Qed.

Lemma delete_dataset_dispatch_fails_witness :
  faults (state_of sample_fields [] [Some "broker unreachable"] ∅)
    = [Some "broker unreachable"] ∧
  fst (delete_dataset (state_of sample_fields [] [Some "broker unreachable"] ∅))
    = Raise (TaskSubsystemError "broker unreachable") ∧
  datasets_core (snd (delete_dataset
                        (state_of sample_fields [] [Some "broker unreachable"] ∅)))
    = datasets_core (state_of sample_fields [] [Some "broker unreachable"] ∅) ∧
  stored (snd (delete_dataset
                 (state_of sample_fields [] [Some "broker unreachable"] ∅)))
    = Some sample_fields.
Proof.
  assert (H : faults (state_of sample_fields [] [Some "broker unreachable"] ∅)
              = [Some "broker unreachable"]) by reflexivity.
  assert (Hrow : stored (state_of sample_fields [] [Some "broker unreachable"] ∅)
                 = Some sample_fields) by (vm_compute; reflexivity).
  split; [exact H |].
  destruct (delete_dataset_dispatch_fails "broker unreachable" [] sample_fields _ H)
    as (_ & _ & Hr & _ & Hc & _ & Hs).
  split; [exact Hr |]. split; [exact Hc |]. exact (eq_trans Hs Hrow).
Defined.
